(** * Roadways ledger backend: the Bilty routes of [server.js]

    A shallow embedding of the five Express route handlers of [server.js]
    and of the helper [parseNumeric], with the properties of the ledger's
    CRUD contract proved about them.

    Conventions of the model.
    - A JavaScript value read from a JSON body is a scalar: [undefined] (an
      absent property), [null], a boolean, a Number or a string.  Arrays and
      objects as field values are outside the model.
    - A string is a Rocq [string]; its characters stand for the code units
      U+0000 .. U+00FF.
    - A Number is NaN, an infinity, or a signed dyadic [m * 2^e]; every
      IEEE 754 double is one of these.  Reading a decimal literal rounds to
      the nearest double, ties to even, as StringToNumber does.
    - A handler is a function from the request and the state of the store
      to the new state of the store and the response.  The store is reached
      only through [pool.query], which the handlers take as a parameter. *)

From Stdlib Require Import ZArith NArith Ascii String Lia.
From stdpp Require Import base decidable option list strings gmap fin_maps sorting.

Local Open Scope string_scope.
Local Open Scope Z_scope.

(** ** JavaScript numbers *)

Inductive Number : Type :=
  | NaN
  | Inf (neg : bool)
  | Fin (neg : bool) (m : N) (e : Z).

Global Instance Number_eq_dec : EqDecision Number.
Proof. solve_decision. Defined.

Definition pos_zero : Number := Fin false 0 0.

(** [Number.isNaN] on a value that already is a Number; the global [isNaN]
    of the source first applies ToNumber, the identity on Numbers. *)
Definition isNaN (n : Number) : bool :=
  match n with NaN => true | _ => false end.

Definition is_zero (n : Number) : bool :=
  match n with Fin _ m _ => (m =? 0)%N | _ => false end.

Definition is_finite (n : Number) : bool :=
  match n with Fin _ _ _ => true | _ => false end.

(** The double nearest to [p / q] for [0 <= p] and [0 < q], ties to even:
    53 significant bits, least exponent -1074, overflow to an infinity at
    [2^1024].  The significand of a normal result lies in [2^52, 2^53). *)
Definition round_ratio (neg : bool) (p q : Z) : Number :=
  if p =? 0 then Fin neg 0 0 else
  let e0 := Z.log2 p - Z.log2 q - 53 in
  let quot0 := if 0 <=? e0 then p / (q * 2 ^ e0) else (p * 2 ^ (- e0)) / q in
  let e1 := if 2 ^ 53 <=? quot0 then e0 + 1 else e0 in
  let e := Z.max e1 (-1074) in
  let num := if 0 <=? e then p else p * 2 ^ (- e) in
  let den := if 0 <=? e then q * 2 ^ e else q in
  let n := num / den in
  let r := num mod den in
  let n' := if 2 * r <? den then n
            else if 2 * r =? den then (if Z.even n then n else n + 1)
            else n + 1 in
  let '(n'', e') := if n' =? 2 ^ 53 then (2 ^ 52, e + 1) else (n', e) in
  if n'' =? 0 then Fin neg 0 0
  else if 971 <? e' then Inf neg
  else Fin neg (Z.to_N n'') e'.

(** The Number value of the decimal [m * 10^e]. *)
Definition number_of_decimal (neg : bool) (m : N) (e : Z) : Number :=
  if 0 <=? e then round_ratio neg (Z.of_N m * 10 ^ e) 1
  else round_ratio neg (Z.of_N m) (10 ^ (- e)).

(** ** JavaScript values *)

Inductive JSValue : Type :=
  | JUndefined
  | JNull
  | JBool (b : bool)
  | JNum (n : Number)
  | JStr (s : string).

Global Instance JSValue_eq_dec : EqDecision JSValue.
Proof. solve_decision. Defined.

(** ToBoolean: the operand of [!] is false for [undefined], [null], [false],
    [0], [-0], NaN and the empty string, true otherwise. *)
Definition ToBoolean (v : JSValue) : bool :=
  match v with
  | JUndefined | JNull => false
  | JBool b => b
  | JNum n => negb (isNaN n || is_zero n)
  | JStr s => negb (String.eqb s "")
  end.

(** ** [parseFloat] *)

Definition is_white_space (c : ascii) : bool :=
  let n := N_of_ascii c in
  ((9 <=? n) && (n <=? 13) || (n =? 32) || (n =? 160))%N.

Definition is_digit (c : ascii) : bool :=
  let n := N_of_ascii c in ((48 <=? n) && (n <=? 57))%N.

Definition digit_value (c : ascii) : N := (N_of_ascii c - 48)%N.

(** TrimString(start). *)
Fixpoint trim_start (s : string) : string :=
  match s with
  | String c r => if is_white_space c then trim_start r else s
  | EmptyString => s
  end.

(** Reads the longest run of decimal digits at the head of [s], continuing
    the numeral [acc]; returns the numeral, the number of digits read and
    the rest of the string. *)
Fixpoint scan_digits (s : string) (acc : N) (count : Z) : N * Z * string :=
  match s with
  | String c r =>
      if is_digit c then scan_digits r (10 * acc + digit_value c)%N (count + 1)
      else (acc, count, s)
  | EmptyString => (acc, count, s)
  end.

(** ExponentPart: [e] or [E], an optional sign and at least one digit;
    the value is 0 when the string does not start with one. *)
Definition scan_exponent (s : string) : Z :=
  match s with
  | String c r =>
      if (Ascii.eqb c "e" || Ascii.eqb c "E")%char then
        match r with
        | String d r' =>
            if Ascii.eqb d "+" then
              let '(v, k, _) := scan_digits r' 0 0 in if k =? 0 then 0 else Z.of_N v
            else if Ascii.eqb d "-" then
              let '(v, k, _) := scan_digits r' 0 0 in if k =? 0 then 0 else - Z.of_N v
            else
              let '(v, k, _) := scan_digits r 0 0 in if k =? 0 then 0 else Z.of_N v
        | EmptyString => 0
        end
      else 0
  | EmptyString => 0
  end.

(** Reads the fraction after the integer part [ip]: a dot and the digits
    that follow it, which continue the numeral. *)
Definition scan_fraction (ip : N) (s : string) : N * Z * string :=
  match s with
  | String c r => if Ascii.eqb c "." then scan_digits r ip 0 else (ip, 0, s)
  | EmptyString => (ip, 0, s)
  end.

(** The longest prefix of [s] that is a StrUnsignedDecimalLiteral, as its
    Number value with the sign [neg]; NaN when no prefix is one. *)
Definition scan_unsigned (neg : bool) (s : string) : Number :=
  if String.prefix "Infinity" s then Inf neg else
  let '(ip, ni, r1) := scan_digits s 0 0 in
  let '(m, nf, r2) := scan_fraction ip r1 in
  if (ni =? 0) && (nf =? 0) then NaN
  else number_of_decimal neg m (scan_exponent r2 - nf).

(** [parseFloat] on a string: trim leading white space, then read the
    longest prefix that is a StrDecimalLiteral. *)
Definition parseFloat_string (s : string) : Number :=
  match trim_start s with
  | String c r =>
      if Ascii.eqb c "+" then scan_unsigned false r
      else if Ascii.eqb c "-" then scan_unsigned true r
      else scan_unsigned false (String c r)
  | EmptyString => scan_unsigned false EmptyString
  end.

(** [parseFloat(value)] applies ToString to its argument first.  For a
    Number the digits ToString prints read back as the same Number, the
    zero of either sign prints as "0"; [undefined], [null], [true] and
    [false] print as their names. *)
Definition parseFloat (value : JSValue) : Number :=
  match value with
  | JUndefined => parseFloat_string "undefined"
  | JNull => parseFloat_string "null"
  | JBool true => parseFloat_string "true"
  | JBool false => parseFloat_string "false"
  | JNum n => if is_zero n then pos_zero else n
  | JStr s => parseFloat_string s
  end.

(** [const parseNumeric = (value) => { const num = parseFloat(value);
    return isNaN(num) ? null : num; }] *)
Definition parseNumeric (value : JSValue) : JSValue :=
  let num := parseFloat value in
  if isNaN num then JNull else JNum num.

(** ** Requests, query results and responses *)

(** [req.body[name]]: an absent property reads as [undefined]. *)
Definition prop (body : gmap string JSValue) (name : string) : JSValue :=
  default JUndefined (body !! name).

(** The fifteen data columns of a [bilty_data] row, as node-postgres hands
    them back in [result.rows]. *)
Record BiltyData : Type := {
  bilty_sl_no : JSValue;
  lr_no : JSValue;
  bill_no : JSValue;
  bill_date : JSValue;
  truck_no : JSValue;
  destination : JSValue;
  weight : JSValue;
  freight : JSValue;
  diesel : JSValue;
  total_adv : JSValue;
  balance : JSValue;
  pump_name : JSValue;
  payment_officer : JSValue;
  damage_if_any : JSValue;
  margin : JSValue
}.

Global Instance BiltyData_eq_dec : EqDecision BiltyData.
Proof. solve_decision. Defined.

(** A row of a result: all columns ([RETURNING *], [SELECT *]) or the
    [id] alone ([RETURNING id]). *)
Inductive ResultRow : Type :=
  | FullRow (id : Z) (data : BiltyData)
  | IdRow (id : Z).

Definition row_id (r : ResultRow) : Z :=
  match r with FullRow id _ => id | IdRow id => id end.

Record QueryResult : Type := { rows : list ResultRow; rowCount : nat }.

(** What a rejected [pool.query] throws: the fields of the error object
    that the handlers read. *)
Record DbError : Type := {
  code : option string;
  column : option string;
  message : string
}.

Inductive Outcome : Type :=
  | Resolved (result : QueryResult)
  | Rejected (err : DbError).

(** The four statements of [server.js] with their parameter arrays. *)
Inductive Query : Type :=
  | SelectAll                        (* SELECT * FROM bilty_data ORDER BY id DESC *)
  | Insert (values : list JSValue)   (* INSERT INTO bilty_data (...) VALUES ($1 .. $15) RETURNING * *)
  | Update (values : list JSValue)   (* UPDATE bilty_data SET ... = $1 .. $15 WHERE id = $16 RETURNING * *)
  | Delete (values : list JSValue).  (* DELETE FROM bilty_data WHERE id = $1 RETURNING id *)

Inductive Payload : Type :=
  | JsonError (error : string)       (* { error: ... } *)
  | JsonRow (row : ResultRow)
  | JsonRows (l : list ResultRow)
  | JsonUndefined                    (* res.json(undefined) *)
  | NoBody.                          (* res.send() *)

Record Response : Type := { status : Z; payload : Payload }.

(** A template literal prints an absent property as "undefined". *)
Definition template (field : option string) : string :=
  default "undefined" field.

(** ** The route handlers *)

Section Routes.
Context {DB : Type}.
Variable pool_query : Query -> DB -> DB * Outcome.

(** [app.get('/api/bilty', ...)] *)
Definition get_bilty (db : DB) : DB * Response :=
  match pool_query SelectAll db with
  | (db', Resolved result) =>
      (db', {| status := 200; payload := JsonRows (rows result) |})
  | (db', Rejected err) =>
      (db', {| status := 500;
               payload := JsonError "Server error fetching bilty data." |})
  end.

(** The [values] array of the Create and Update handlers. *)
Definition bilty_values (body : gmap string JSValue) : list JSValue :=
  [ prop body "bilty_sl_no"; prop body "lr_no"; prop body "bill_no";
    prop body "bill_date"; prop body "truck_no"; prop body "destination";
    parseNumeric (prop body "weight"); parseNumeric (prop body "freight");
    parseNumeric (prop body "diesel"); parseNumeric (prop body "total_adv");
    parseNumeric (prop body "balance"); prop body "pump_name";
    prop body "payment_officer"; prop body "damage_if_any";
    parseNumeric (prop body "margin") ].

(** [result.rows[0]] as a JSON payload. *)
Definition first_row (result : QueryResult) : Payload :=
  match rows result with
  | r :: _ => JsonRow r
  | [] => JsonUndefined
  end.

(** The [catch] block of the Create handler. *)
Definition insert_error (err : DbError) : Response :=
  if bool_decide (code err = Some "23505") then
    {| status := 409;
       payload := JsonError "Bilty SL No. already exists. Please use a unique number." |}
  else if bool_decide (code err = Some "23502") then
    {| status := 400;
       payload := JsonError ("Missing required data for column: " +:+ template (column err)) |}
  else
    {| status := 500; payload := JsonError ("Server error: " +:+ message err) |}.

Definition required_fields_response : Response :=
  {| status := 400; payload := JsonError "Bilty SL No. and Weight are required." |}.

(** [app.post('/api/bilty', ...)] *)
Definition post_bilty (body : gmap string JSValue) (db : DB) : DB * Response :=
  if negb (ToBoolean (prop body "bilty_sl_no")) || negb (ToBoolean (prop body "weight"))
  then (db, required_fields_response)
  else
    match pool_query (Insert (bilty_values body)) db with
    | (db', Resolved result) =>
        (db', {| status := 201; payload := first_row result |})
    | (db', Rejected err) => (db', insert_error err)
    end.

Definition not_found_response : Response :=
  {| status := 404; payload := JsonError "Bilty entry not found." |}.

(** [app.put('/api/bilty/:id', ...)] *)
Definition put_bilty (id : string) (body : gmap string JSValue) (db : DB)
  : DB * Response :=
  match pool_query (Update (bilty_values body ++ [JStr id])) db with
  | (db', Resolved result) =>
      if (length (rows result) =? 0)%nat then (db', not_found_response)
      else (db', {| status := 200; payload := first_row result |})
  | (db', Rejected err) =>
      (db', {| status := 500; payload := JsonError ("Server error: " +:+ message err) |})
  end.

(** [app.delete('/api/bilty/:id', ...)] *)
Definition delete_bilty (id : string) (db : DB) : DB * Response :=
  match pool_query (Delete [JStr id]) db with
  | (db', Resolved result) =>
      if (rowCount result =? 0)%nat then (db', not_found_response)
      else (db', {| status := 204; payload := NoBody |})
  | (db', Rejected err) =>
      (db', {| status := 500;
               payload := JsonError "Server error deleting bilty entry." |})
  end.
End Routes.

(** ** The store *)

(** Modelled from the spec: the table [bilty_data], whose schema is not part
    of [server.js].  Per sections 3 and 6 of the specification it has the
    fifteen data columns, an integer primary key [id] assigned by the store
    from an increasing sequence, a uniqueness constraint on [bilty_sl_no]
    and a not-null constraint on [weight].  A table is a finite map from
    [id] to the data of the row, with the next value of the sequence. *)
Record Table : Type := { tbl_rows : gmap Z BiltyData; tbl_seq : Z }.

(** node-postgres binds both [undefined] and [null] as SQL NULL. *)
Definition prepareValue (v : JSValue) : JSValue :=
  match v with JUndefined => JNull | _ => v end.

(** The parameters [$1 .. $15] in the column order of the statements. *)
Definition data_of_params (vs : list JSValue) : option BiltyData :=
  match prepareValue <$> vs with
  | [v1; v2; v3; v4; v5; v6; v7; v8; v9; v10; v11; v12; v13; v14; v15] =>
      Some {| bilty_sl_no := v1; lr_no := v2; bill_no := v3; bill_date := v4;
              truck_no := v5; destination := v6; weight := v7; freight := v8;
              diesel := v9; total_adv := v10; balance := v11; pump_name := v12;
              payment_officer := v13; damage_if_any := v14; margin := v15 |}
  | _ => None
  end.

Definition quoted (s : string) : string :=
  String "034" s +:+ String "034" "".

(** SQLSTATE 23502, not_null_violation. *)
Definition not_null_violation (col : string) : DbError :=
  {| code := Some "23502"; column := Some col;
     message := "null value in column " +:+ quoted col
                +:+ " of relation " +:+ quoted "bilty_data"
                +:+ " violates not-null constraint" |}.

(** SQLSTATE 23505, unique_violation. *)
Definition unique_violation (constraint : string) : DbError :=
  {| code := Some "23505"; column := None;
     message := "duplicate key value violates unique constraint "
                +:+ quoted constraint |}.

(** SQLSTATE 22P02, invalid_text_representation. *)
Definition invalid_integer (s : string) : DbError :=
  {| code := Some "22P02"; column := None;
     message := "invalid input syntax for type integer: " +:+ quoted s |}.

(** SQLSTATE 22003, numeric_value_out_of_range. *)
Definition integer_out_of_range (s : string) : DbError :=
  {| code := Some "22003"; column := None;
     message := "value " +:+ quoted s +:+ " is out of range for type integer" |}.

(** SQLSTATE 08P01, protocol_violation. *)
Definition bind_mismatch : DbError :=
  {| code := Some "08P01"; column := None;
     message := "bind message supplies the wrong number of parameters" |}.

Definition is_space (c : ascii) : bool :=
  let n := N_of_ascii c in (((9 <=? n) && (n <=? 13)) || (n =? 32))%N.

Fixpoint skip_spaces (s : string) : string :=
  match s with
  | String c r => if is_space c then skip_spaces r else s
  | EmptyString => s
  end.

(** Modelled from the spec: the store reads the text bound to the integer
    column [id] as an optional sign and decimal digits, white space allowed
    around them, within 32 bits. *)
Definition pg_int4_in (s : string) : DbError + Z :=
  let t := skip_spaces s in
  let '(neg, t1) :=
    match t with
    | String "-" r => (true, r)
    | String "+" r => (false, r)
    | _ => (false, t)
    end in
  let '(v, k, rest) := scan_digits t1 0 0 in
  if k =? 0 then inl (invalid_integer s)
  else if negb (String.eqb (skip_spaces rest) "") then inl (invalid_integer s)
  else
    let z := if neg then - Z.of_N v else Z.of_N v in
    if (z <? - 2 ^ 31) || (2 ^ 31 - 1 <? z) then inl (integer_out_of_range s)
    else inr z.

(** The text of an identifier parameter: the handlers bind a string. *)
Definition id_of_param (v : JSValue) : DbError + Z :=
  match v with
  | JStr s => pg_int4_in s
  | _ => inl bind_mismatch
  end.

(** Another row than [self] already holds the non-null serial number [sl]. *)
Definition sl_no_taken (self : option Z) (sl : JSValue) (m : gmap Z BiltyData) : bool :=
  bool_decide (sl ≠ JNull) &&
  bool_decide (map_Exists (λ k d, Some k ≠ self ∧ bilty_sl_no d = sl) m).

(** [ORDER BY id DESC]. *)
Definition id_desc (a b : Z * BiltyData) : Prop := b.1 ≤ a.1.

Global Instance id_desc_dec a b : Decision (id_desc a b).
Proof. unfold id_desc. apply _. Defined.

Definition select_desc (m : gmap Z BiltyData) : list ResultRow :=
  (λ kd, FullRow kd.1 kd.2) <$> merge_sort id_desc (map_to_list m).

Definition resolved (rs : list ResultRow) : Outcome :=
  Resolved {| rows := rs; rowCount := length rs |}.

(** Modelled from the spec: what the store answers to each statement.  An
    INSERT takes the next [id] of the sequence, and checks the not-null
    constraint before the unique ones; an UPDATE or DELETE that matches no
    row succeeds with an empty result and checks nothing. *)
Definition pg_query (q : Query) (t : Table) : Table * Outcome :=
  match q with
  | SelectAll => (t, resolved (select_desc (tbl_rows t)))
  | Insert vs =>
      match data_of_params vs with
      | None => (t, Rejected bind_mismatch)
      | Some d =>
          let id := tbl_seq t in
          let t' := {| tbl_rows := tbl_rows t; tbl_seq := id + 1 |} in
          if bool_decide (weight d = JNull) then
            (t', Rejected (not_null_violation "weight"))
          else if bool_decide (is_Some (tbl_rows t !! id)) then
            (t', Rejected (unique_violation "bilty_data_pkey"))
          else if sl_no_taken None (bilty_sl_no d) (tbl_rows t) then
            (t', Rejected (unique_violation "bilty_data_bilty_sl_no_key"))
          else
            ({| tbl_rows := <[id := d]> (tbl_rows t); tbl_seq := id + 1 |},
             resolved [FullRow id d])
      end
  | Update vs =>
      match data_of_params (take 15 vs), id_of_param <$> (vs !! 15%nat), drop 16 vs with
      | Some d, Some (inr id), [] =>
          match tbl_rows t !! id with
          | None => (t, resolved [])
          | Some _ =>
              if bool_decide (weight d = JNull) then
                (t, Rejected (not_null_violation "weight"))
              else if sl_no_taken (Some id) (bilty_sl_no d) (tbl_rows t) then
                (t, Rejected (unique_violation "bilty_data_bilty_sl_no_key"))
              else
                ({| tbl_rows := <[id := d]> (tbl_rows t); tbl_seq := tbl_seq t |},
                 resolved [FullRow id d])
          end
      | Some _, Some (inl err), [] => (t, Rejected err)
      | _, _, _ => (t, Rejected bind_mismatch)
      end
  | Delete vs =>
      match vs with
      | [v] =>
          match id_of_param v with
          | inl err => (t, Rejected err)
          | inr id =>
              match tbl_rows t !! id with
              | None => (t, resolved [])
              | Some _ =>
                  ({| tbl_rows := delete id (tbl_rows t); tbl_seq := tbl_seq t |},
                   resolved [IdRow id])
              end
          end
      | _ => (t, Rejected bind_mismatch)
      end
  end.

(** A store that cannot be reached: every query is rejected. *)
Definition connection_refused : DbError :=
  {| code := Some "ECONNREFUSED"; column := None;
     message := "connect ECONNREFUSED 127.0.0.1:5432" |}.

Definition unreachable_query (q : Query) (t : Table) : Table * Outcome :=
  (t, Rejected connection_refused).

(** ** Descriptions used in the statements *)

Definition starts_with_digit (s : string) : bool :=
  match s with String c _ => is_digit c | EmptyString => false end.

(** [s] begins with a StrUnsignedDecimalLiteral: the word Infinity, a
    digit, or a dot followed by a digit. *)
Definition starts_unsigned_literal (s : string) : bool :=
  String.prefix "Infinity" s || starts_with_digit s ||
  match s with
  | String c r => Ascii.eqb c "." && starts_with_digit r
  | EmptyString => false
  end.

(** Numeric text: after leading white space and an optional sign the
    string begins with a decimal literal. *)
Definition numeric_text (s : string) : bool :=
  match trim_start s with
  | String c r =>
      if Ascii.eqb c "+" || Ascii.eqb c "-" then starts_unsigned_literal r
      else starts_unsigned_literal (String c r)
  | EmptyString => false
  end.

(** The result of Numeric Coercion as the specification words it: a finite
    number or the no-value marker. *)
Definition finite_or_no_value (r : JSValue) : Prop :=
  r = JNull ∨ ∃ n, r = JNum n ∧ is_finite n = true.

(** A required input as the specification words it: missing or empty. *)
Definition missing_or_empty (v : JSValue) : bool :=
  match v with
  | JUndefined | JNull => true
  | JStr s => String.eqb s ""
  | _ => false
  end.

(** The values that [!] takes to [true]. *)
Definition falsy (v : JSValue) : Prop :=
  v = JUndefined ∨ v = JNull ∨ v = JStr "" ∨ v = JBool false ∨
  ∃ n, v = JNum n ∧ (n = NaN ∨ is_zero n = true).

(** The row that a request body asks for: the six decimal fields through
    [parseNumeric], the others as given, an absent one as NULL. *)
Definition requested_data (body : gmap string JSValue) : BiltyData :=
  {| bilty_sl_no := prepareValue (prop body "bilty_sl_no");
     lr_no := prepareValue (prop body "lr_no");
     bill_no := prepareValue (prop body "bill_no");
     bill_date := prepareValue (prop body "bill_date");
     truck_no := prepareValue (prop body "truck_no");
     destination := prepareValue (prop body "destination");
     weight := parseNumeric (prop body "weight");
     freight := parseNumeric (prop body "freight");
     diesel := parseNumeric (prop body "diesel");
     total_adv := parseNumeric (prop body "total_adv");
     balance := parseNumeric (prop body "balance");
     pump_name := prepareValue (prop body "pump_name");
     payment_officer := prepareValue (prop body "payment_officer");
     damage_if_any := prepareValue (prop body "damage_if_any");
     margin := parseNumeric (prop body "margin") |}.

(** The names of the fields that the handlers read from a body. *)
Definition field_names : list string :=
  [ "bilty_sl_no"; "lr_no"; "bill_no"; "bill_date"; "truck_no"; "destination";
    "weight"; "freight"; "diesel"; "total_adv"; "balance"; "pump_name";
    "payment_officer"; "damage_if_any"; "margin" ].

Definition rows_of (t : Table) : list ResultRow :=
  (λ kd, FullRow kd.1 kd.2) <$> map_to_list (tbl_rows t).

(** The order of a listing: each row has a greater [id] than the rows
    after it. *)
Definition id_descending (a b : ResultRow) : Prop := row_id b < row_id a.

(** ** Sample requests and tables *)

Definition sample_body : gmap string JSValue :=
  {[ "bilty_sl_no" := JStr "B-1"; "weight" := JStr "12.5";
     "truck_no" := JStr "WB-01"; "colour" := JStr "red" ]}.

Definition second_body : gmap string JSValue :=
  <["bilty_sl_no" := JStr "B-2"]> sample_body.

Definition zero_weight_body : gmap string JSValue :=
  <["weight" := JNum pos_zero]> sample_body.

Definition text_weight_body : gmap string JSValue :=
  <["weight" := JStr "abc"]> sample_body.

Definition weight_only_body : gmap string JSValue :=
  {[ "weight" := JStr "7" ]}.

Definition empty_table : Table := {| tbl_rows := ∅; tbl_seq := 1 |}.

Definition one_row_table : Table :=
  (post_bilty pg_query sample_body empty_table).1.

Definition two_row_table : Table :=
  (post_bilty pg_query second_body one_row_table).1.

(** ** The origin gate *)

(** [allowedOrigins] *)
Definition allowedOrigins : list string :=
  [ "https://moslemerror-maker.github.io";
    "https://roadways-ledger-frontend-xxxx.github.io";
    "https://roadways.bestcement.co.in" ].

(** [Array.prototype.indexOf] on an array of strings: the index of the
    first element strictly equal to [x], or -1. *)
Fixpoint indexOf_from (i : Z) (l : list string) (x : string) : Z :=
  match l with
  | [] => -1
  | y :: r => if String.eqb y x then i else indexOf_from (i + 1) r x
  end.

Definition indexOf (l : list string) (x : string) : Z := indexOf_from 0 l x.

(** What the [origin] function of the CORS options hands to its callback:
    [callback(null, true)] or [callback(new Error(msg), false)]. *)
Inductive OriginDecision : Type :=
  | OriginAllowed
  | OriginRefused (msg : string).

(** The [origin] function of the CORS options.  The Origin header of a
    request is a string, or [undefined] when the request has none. *)
Definition cors_origin (origin : option string) : OriginDecision :=
  match origin with
  | None => OriginAllowed
  | Some o =>
      if String.eqb o "" then OriginAllowed
      else if indexOf allowedOrigins o =? -1 then
        OriginRefused
          ("The CORS policy for this site does not allow access from the specified Origin: "
           +:+ o)
      else OriginAllowed
  end.

(** ** The four routes together *)

Inductive Request : Type :=
  | GetBilty                                              (* GET /api/bilty *)
  | PostBilty (body : gmap string JSValue)                (* POST /api/bilty *)
  | PutBilty (id : string) (body : gmap string JSValue)   (* PUT /api/bilty/:id *)
  | DeleteBilty (id : string).                            (* DELETE /api/bilty/:id *)

Definition handle {DB : Type} (pool_query : Query → DB → DB * Outcome)
    (req : Request) (db : DB) : DB * Response :=
  match req with
  | GetBilty => get_bilty pool_query db
  | PostBilty body => post_bilty pool_query body db
  | PutBilty id body => put_bilty pool_query id body db
  | DeleteBilty id => delete_bilty pool_query id db
  end.

(** The store after a sequence of requests, handled one after another. *)
Fixpoint run {DB : Type} (pool_query : Query → DB → DB * Outcome)
    (reqs : list Request) (db : DB) : DB :=
  match reqs with
  | [] => db
  | req :: rest => run pool_query rest (handle pool_query req db).1
  end.

(** ** Further descriptions used in the statements *)

Fixpoint string_forall (P : ascii → bool) (s : string) : bool :=
  match s with
  | String c r => P c && string_forall P r
  | EmptyString => true
  end.

(** The value of a string of decimal digits read after the numeral [acc]. *)
Fixpoint numeral_from (acc : N) (ds : string) : N :=
  match ds with
  | String c r => numeral_from (10 * acc + digit_value c)%N r
  | EmptyString => acc
  end.

(** [r] could continue a numeral: it begins with a digit, a dot or an
    exponent indicator. *)
Definition continues_literal (r : string) : bool :=
  match r with
  | String c _ =>
      is_digit c || Ascii.eqb c "." || Ascii.eqb c "e" || Ascii.eqb c "E"
  | EmptyString => false
  end.

(** [s] begins neither with white space nor with a sign. *)
Definition starts_plain (s : string) : bool :=
  match s with
  | String c _ => negb (is_white_space c || Ascii.eqb c "+" || Ascii.eqb c "-")
  | EmptyString => true
  end.

Definition negate (n : Number) : Number :=
  match n with
  | NaN => NaN
  | Inf neg => Inf (negb neg)
  | Fin neg m e => Fin (negb neg) m e
  end.

(** A decimal cell holds NULL or a Number that is not NaN. *)
Definition decimal_ok (v : JSValue) : Prop :=
  v = JNull ∨ ∃ n, v = JNum n ∧ isNaN n = false.

Definition row_ok (d : BiltyData) : Prop :=
  (∃ n, weight d = JNum n ∧ isNaN n = false) ∧
  decimal_ok (freight d) ∧ decimal_ok (diesel d) ∧ decimal_ok (total_adv d) ∧
  decimal_ok (balance d) ∧ decimal_ok (margin d).

(** The state of a table that the routes keep: every row has a numeric
    weight and decimal cells that are NULL or numbers, no two rows share a
    non-null serial number, and every [id] in use is below the next value
    of the sequence. *)
Record table_ok (t : Table) : Prop := {
  ok_rows : ∀ k d, tbl_rows t !! k = Some d → row_ok d;
  ok_serials : ∀ k1 k2 d1 d2,
    tbl_rows t !! k1 = Some d1 → tbl_rows t !! k2 = Some d2 →
    bilty_sl_no d1 ≠ JNull → bilty_sl_no d1 = bilty_sl_no d2 → k1 = k2;
  ok_ids : ∀ k, is_Some (tbl_rows t !! k) → k < tbl_seq t
}.

Definition conflict_response : Response :=
  {| status := 409;
     payload := JsonError "Bilty SL No. already exists. Please use a unique number." |}.

(** A status that reports success. *)
Definition is_success (r : Response) : bool :=
  (200 <=? status r) && (status r <? 300).

(** * Properties *)

(** ** Numeric Coercion *)

Lemma round_ratio_not_nan neg p q : isNaN (round_ratio neg p q) = false.
Proof.
  unfold round_ratio.
  destruct (p =? 0); [done|].
  cbv zeta.
  match goal with
  | |- context [let '(_, _) := ?c in _] => destruct c as [n2 e2]
  end.
  destruct (n2 =? 0); [done|].
  by destruct (971 <? e2).
Qed.

Lemma number_of_decimal_not_nan neg m e :
  isNaN (number_of_decimal neg m e) = false.
Proof.
  unfold number_of_decimal.
  destruct (0 <=? e); apply round_ratio_not_nan.
Qed.

Lemma scan_digits_count s : ∀ acc c,
  c ≤ (scan_digits s acc c).1.2 ∧
  ((scan_digits s acc c).1.2 = c ↔ starts_with_digit s = false) ∧
  (starts_with_digit s = false → (scan_digits s acc c).2 = s).
Proof.
  induction s as [|a s IH]; intros acc c; simpl.
  - split; [lia|]. done.
  - destruct (is_digit a) eqn:Hd; simpl.
    + destruct (IH (10 * acc + digit_value a)%N (c + 1)) as (Hle & _ & _).
      split; [lia|]. split; [|done]. split; [lia|done].
    + split; [lia|]. done.
Qed.

Lemma dot_is_not_digit c : Ascii.eqb c "." = true → is_digit c = false.
Proof. intros ->%Ascii.eqb_eq. reflexivity. Qed.

Lemma scan_unsigned_nan neg s :
  isNaN (scan_unsigned neg s) = negb (starts_unsigned_literal s).
Proof.
  unfold scan_unsigned, starts_unsigned_literal.
  destruct (String.prefix "Infinity" s); [done|]. simpl.
  destruct (scan_digits_count s 0%N 0) as (Hle & Hz & Hrest).
  destruct (scan_digits s 0 0) as [[ip ni] r1] eqn:Hs. simpl in *.
  destruct (starts_with_digit s) eqn:Hd.
  - assert (ni ≠ 0) by (intros ->; by destruct Hz as [Hz _]; specialize (Hz eq_refl)).
    replace (ni =? 0) with false by (symmetry; by apply Z.eqb_neq).
    destruct (scan_fraction ip r1) as [[m nf] r2]. simpl.
    apply number_of_decimal_not_nan.
  - rewrite Hrest by done. rewrite (proj2 Hz) by done. simpl.
    destruct s as [|c r]; [done|]. simpl.
    destruct (Ascii.eqb c ".") eqn:Hc; simpl.
    + destruct (scan_digits_count r ip 0) as (Hle' & Hz' & _).
      destruct (scan_digits r ip 0) as [[m nf] r2] eqn:Hf. simpl in *.
      destruct (starts_with_digit r) eqn:Hr.
      * assert (nf ≠ 0) by (intros ->; by destruct Hz' as [Hz' _]; specialize (Hz' eq_refl)).
        replace (nf =? 0) with false by (symmetry; by apply Z.eqb_neq).
        apply number_of_decimal_not_nan.
      * by rewrite (proj2 Hz').
    + done.
Qed.

Lemma parseFloat_string_nan s :
  isNaN (parseFloat_string s) = negb (numeric_text s).
Proof.
  unfold parseFloat_string, numeric_text.
  destruct (trim_start s) as [|c r]; [done|].
  destruct (Ascii.eqb c "+"); simpl; [apply scan_unsigned_nan|].
  destruct (Ascii.eqb c "-"); apply scan_unsigned_nan.
Qed.

Lemma parseNumeric_cases value :
  parseNumeric value = JNull ∨
  ∃ n, parseNumeric value = JNum n ∧ isNaN n = false.
Proof.
  unfold parseNumeric. cbv zeta.
  destruct (isNaN (parseFloat value)) eqn:E; [by left|right; eauto].
Qed.

Lemma parseNumeric_string s :
  if numeric_text s
  then ∃ n, parseNumeric (JStr s) = JNum n ∧ isNaN n = false
  else parseNumeric (JStr s) = JNull.
Proof.
  unfold parseNumeric. simpl.
  pose proof (parseFloat_string_nan s) as Hnan.
  destruct (numeric_text s); simpl in Hnan; rewrite Hnan; eauto.
Qed.

Lemma prepareValue_parseNumeric v : prepareValue (parseNumeric v) = parseNumeric v.
Proof. by destruct (parseNumeric_cases v) as [->|(n & -> & _)]. Qed.

(** C2, as amended.  For every scalar input, [parseNumeric] returns a
    value, and that value is either a Number that is not NaN (finite, or an
    infinity) or [null]; it is never anything else.  The inputs
    [undefined], [null], [true], [false], NaN and text that does not begin
    with a decimal literal (the empty string among them) give [null]; a
    Number that is not NaN gives itself, a zero as [0]; numeric text gives
    a Number. *)
Theorem parseNumeric_result (value : JSValue) :
  (parseNumeric value = JNull ∨
   ∃ n, parseNumeric value = JNum n ∧ isNaN n = false) ∧
  match value with
  | JUndefined | JNull | JBool _ => parseNumeric value = JNull
  | JNum n =>
      parseNumeric value =
        if isNaN n then JNull else JNum (if is_zero n then pos_zero else n)
  | JStr s =>
      if numeric_text s
      then ∃ n, parseNumeric value = JNum n ∧ isNaN n = false
      else parseNumeric value = JNull
  end.
Proof.
  split; [apply parseNumeric_cases|].
  destruct value as [| |[|]|n|s]; try reflexivity.
  - unfold parseNumeric. simpl. by destruct n as [| |neg [|m] e].
  - apply parseNumeric_string.
Qed.

(** C2, as stated, fails: the text "Infinity" is coerced to the Number
    Infinity, which is neither finite nor the no-value marker. *)
Lemma parseNumeric_infinity_not_finite :
  ¬ finite_or_no_value (parseNumeric (JStr "Infinity")).
Proof.
  change (parseNumeric (JStr "Infinity")) with (JNum (Inf false)).
  intros [H|(n & H & Hfin)]; [discriminate|].
  injection H as <-. discriminate.
Qed.

Example parseNumeric_decimal_text :
  parseNumeric (JStr "12.5") = JNum (Fin false 7036874417766400 (-49)).
Proof. reflexivity. Qed.

Example parseNumeric_prefix_text :
  parseNumeric (JStr " -3e2 kg") = JNum (Fin true 5277655813324800 (-44)).
Proof. reflexivity. Qed.

Example parseNumeric_word : parseNumeric (JStr "abc") = JNull.
Proof. reflexivity. Qed.

Example parseNumeric_empty : parseNumeric (JStr "") = JNull.
Proof. reflexivity. Qed.

Example parseNumeric_overflow : parseNumeric (JStr "1e999") = JNum (Inf false).
Proof. vm_compute. reflexivity. Qed.

Example parseNumeric_number :
  parseNumeric (JNum (Fin false 25 (-1))) = JNum (Fin false 25 (-1)).
Proof. reflexivity. Qed.

(** ** The presence check of Create *)

Lemma ToBoolean_false v : ToBoolean v = false ↔ falsy v.
Proof.
  unfold falsy. destruct v as [| |b|n|s]; simpl.
  - split; [by left|done].
  - split; [by right; left|done].
  - destruct b; (split; [try done; by do 3 right; left|]); [|done].
    intros [?|[?|[?|[?|(n & ? & _)]]]]; discriminate.
  - rewrite negb_false_iff, orb_true_iff. split.
    + intros H. do 4 right. exists n. split; [done|].
      destruct H as [H|H]; [left; by destruct n|by right].
    + intros [?|[?|[?|[?|(n' & Hn & H)]]]]; try discriminate.
      injection Hn as <-. destruct H as [->|H]; [by left|by right].
  - rewrite negb_false_iff, String.eqb_eq. split.
    + intros ->. by do 2 right; left.
    + intros [?|[?|[?|[?|(n & ? & _)]]]]; try discriminate. congruence.
Qed.

Lemma insert_error_not_required err :
  insert_error err ≠ required_fields_response.
Proof.
  unfold insert_error, required_fields_response.
  repeat case_bool_decide; simpl; intros [=].
Qed.

(** C1, as amended.  Create answers with the required-fields HTTP 400,
    leaving the store as it was, exactly when [bilty_sl_no] or [weight] is
    falsy on the raw input: missing, [null], the empty string, [false], or
    a Number that is zero or NaN.  Every other request is sent on, so any
    non-empty string weight, numeric or not, passes the check. *)
Theorem create_gate {DB : Type} (pool_query : Query → DB → DB * Outcome)
    (body : gmap string JSValue) (db : DB) :
  post_bilty pool_query body db
  = (db, {| status := 400;
            payload := JsonError "Bilty SL No. and Weight are required." |}) ↔
  falsy (prop body "bilty_sl_no") ∨ falsy (prop body "weight").
Proof.
  change {| status := 400;
            payload := JsonError "Bilty SL No. and Weight are required." |}
    with required_fields_response.
  rewrite <- !ToBoolean_false. unfold post_bilty.
  destruct (ToBoolean (prop body "bilty_sl_no")) eqn:Hsl; simpl;
    [|split; [by left|done]].
  destruct (ToBoolean (prop body "weight")) eqn:Hw; simpl;
    [|split; [by right|done]].
  split; [|intros [?|?]; discriminate].
  destruct (pool_query _ db) as [db' [result|err]]; intros Heq;
    injection Heq as Hdb Hresp; [discriminate|].
  by apply insert_error_not_required in Hresp.
Qed.

Lemma create_gate_witness :
  post_bilty pg_query zero_weight_body empty_table
  = (empty_table,
     {| status := 400;
        payload := JsonError "Bilty SL No. and Weight are required." |}).
Proof.
  apply (proj2 (create_gate pg_query zero_weight_body empty_table)).
  right. repeat right. exists pos_zero. split; [reflexivity|right; reflexivity].
Defined.

(** C1, as stated, fails: a weight given as the number 0 is neither
    missing nor empty, and Create still answers HTTP 400. *)
Lemma create_gate_zero_weight :
  ¬ (status (post_bilty pg_query zero_weight_body empty_table).2 = 400 ↔
     missing_or_empty (prop zero_weight_body "bilty_sl_no") = true ∨
     missing_or_empty (prop zero_weight_body "weight") = true).
Proof.
  intros [H _].
  destruct (H eq_refl) as [E|E]; vm_compute in E; discriminate.
Qed.

Lemma nonempty_string_passes_gate s : s ≠ "" → ToBoolean (JStr s) = true.
Proof. intros H. simpl. apply negb_true_iff. by apply String.eqb_neq. Qed.

(** ** The statements sent to the store *)

Lemma data_of_params_values body :
  data_of_params (bilty_values body) = Some (requested_data body).
Proof.
  unfold data_of_params, bilty_values, requested_data. simpl.
  by rewrite !prepareValue_parseNumeric.
Qed.

Lemma pg_insert body t :
  pg_query (Insert (bilty_values body)) t =
    let d := requested_data body in
    let id := tbl_seq t in
    let t' := {| tbl_rows := tbl_rows t; tbl_seq := id + 1 |} in
    if bool_decide (weight d = JNull) then
      (t', Rejected (not_null_violation "weight"))
    else if bool_decide (is_Some (tbl_rows t !! id)) then
      (t', Rejected (unique_violation "bilty_data_pkey"))
    else if sl_no_taken None (bilty_sl_no d) (tbl_rows t) then
      (t', Rejected (unique_violation "bilty_data_bilty_sl_no_key"))
    else
      ({| tbl_rows := <[id := d]> (tbl_rows t); tbl_seq := id + 1 |},
       resolved [FullRow id d]).
Proof. unfold pg_query. by rewrite data_of_params_values. Qed.

Lemma pg_update id body t :
  pg_query (Update (bilty_values body ++ [JStr id])%list) t =
    let d := requested_data body in
    match pg_int4_in id with
    | inl err => (t, Rejected err)
    | inr k =>
        match tbl_rows t !! k with
        | None => (t, resolved [])
        | Some _ =>
            if bool_decide (weight d = JNull) then
              (t, Rejected (not_null_violation "weight"))
            else if sl_no_taken (Some k) (bilty_sl_no d) (tbl_rows t) then
              (t, Rejected (unique_violation "bilty_data_bilty_sl_no_key"))
            else
              ({| tbl_rows := <[k := d]> (tbl_rows t); tbl_seq := tbl_seq t |},
               resolved [FullRow k d])
        end
    end.
Proof.
  unfold pg_query.
  change (take 15 (bilty_values body ++ [JStr id])%list) with (bilty_values body).
  change ((bilty_values body ++ [JStr id])%list !! 15%nat) with (Some (JStr id)).
  change (drop 16 (bilty_values body ++ [JStr id])%list) with (@nil JSValue).
  rewrite data_of_params_values. simpl.
  by destruct (pg_int4_in id).
Qed.

Lemma pg_delete id t :
  pg_query (Delete [JStr id]) t =
    match pg_int4_in id with
    | inl err => (t, Rejected err)
    | inr k =>
        match tbl_rows t !! k with
        | None => (t, resolved [])
        | Some _ =>
            ({| tbl_rows := delete k (tbl_rows t); tbl_seq := tbl_seq t |},
             resolved [IdRow k])
        end
    end.
Proof. reflexivity. Qed.

Lemma sl_no_taken_true self sl (m : gmap Z BiltyData) k d :
  sl ≠ JNull → m !! k = Some d → Some k ≠ self → bilty_sl_no d = sl →
  sl_no_taken self sl m = true.
Proof.
  intros Hsl Hk Hself Hd. unfold sl_no_taken.
  apply andb_true_iff. split; apply bool_decide_eq_true; [done|].
  by exists k, d.
Qed.

Lemma prop_insert_ne (body : gmap string JSValue) k v name :
  k ≠ name → prop (<[k := v]> body) name = prop body name.
Proof. intros H. unfold prop. by rewrite lookup_insert_ne. Qed.

Lemma bilty_values_unknown_field (body : gmap string JSValue) k v :
  k ∉ field_names → bilty_values (<[k := v]> body) = bilty_values body.
Proof.
  intros H. unfold bilty_values.
  rewrite !prop_insert_ne; [done|..]; intros ->; apply H; unfold field_names;
    repeat (first [apply list_elem_of_here | apply list_elem_of_further]).
Qed.

(** ** Create *)

(** C3.  When the store rejects the INSERT of a Create request, the class of
    the fault decides the response: SQLSTATE 23505 (uniqueness violation)
    gives HTTP 409 with the message that the Bilty SL No. already exists;
    23502 (not-null violation) gives HTTP 400 with a message that ends with
    the name of the column the fault reports, whichever column that is;
    any other fault gives HTTP 500 with the text of the fault. *)
Theorem create_store_fault {DB : Type} (pool_query : Query → DB → DB * Outcome)
    (body : gmap string JSValue) (db db' : DB) (err : DbError) :
  ToBoolean (prop body "bilty_sl_no") = true →
  ToBoolean (prop body "weight") = true →
  pool_query (Insert (bilty_values body)) db = (db', Rejected err) →
  ∃ resp, post_bilty pool_query body db = (db', resp) ∧
    (code err = Some "23505" →
       resp = {| status := 409;
                 payload := JsonError "Bilty SL No. already exists. Please use a unique number." |}) ∧
    (code err = Some "23502" → ∀ c, column err = Some c →
       resp = {| status := 400;
                 payload := JsonError ("Missing required data for column: " +:+ c) |}) ∧
    (code err = Some "23502" → column err = None →
       resp = {| status := 400;
                 payload := JsonError "Missing required data for column: undefined" |}) ∧
    (code err ≠ Some "23505" → code err ≠ Some "23502" →
       resp = {| status := 500;
                 payload := JsonError ("Server error: " +:+ message err) |}).
Proof.
  intros Hsl Hw Hq. exists (insert_error err). split.
  - unfold post_bilty. by rewrite Hsl, Hw, Hq.
  - unfold insert_error. repeat split.
    + intros H. by rewrite bool_decide_eq_true_2.
    + intros H c Hc.
      rewrite bool_decide_eq_false_2 by (rewrite H; discriminate).
      rewrite bool_decide_eq_true_2 by done. unfold template. by rewrite Hc.
    + intros H Hc.
      rewrite bool_decide_eq_false_2 by (rewrite H; discriminate).
      rewrite bool_decide_eq_true_2 by done. unfold template. by rewrite Hc.
    + intros H1 H2. by rewrite !bool_decide_eq_false_2.
Qed.

Lemma create_store_fault_witness :
  (post_bilty pg_query sample_body one_row_table).2
  = {| status := 409;
       payload := JsonError "Bilty SL No. already exists. Please use a unique number." |}
  ∧ (post_bilty pg_query text_weight_body empty_table).2
    = {| status := 400;
         payload := JsonError "Missing required data for column: weight" |}
  ∧ (post_bilty (λ (q : Query) (t : Table), (t, Rejected (not_null_violation "freight")))
       sample_body empty_table).2
    = {| status := 400;
         payload := JsonError "Missing required data for column: freight" |}
  ∧ (post_bilty unreachable_query sample_body empty_table).2
    = {| status := 500;
         payload := JsonError "Server error: connect ECONNREFUSED 127.0.0.1:5432" |}.
Proof.
  split; [|split; [|split]].
  - destruct (create_store_fault pg_query sample_body one_row_table
                {| tbl_rows := tbl_rows one_row_table; tbl_seq := 3 |}
                (unique_violation "bilty_data_bilty_sl_no_key"))
      as (resp & Heq & H409 & _).
    + reflexivity.
    + reflexivity.
    + vm_compute. reflexivity.
    + rewrite Heq. apply H409. reflexivity.
  - destruct (create_store_fault pg_query text_weight_body empty_table
                {| tbl_rows := ∅; tbl_seq := 2 |}
                (not_null_violation "weight"))
      as (resp & Heq & _ & H400 & _).
    + reflexivity.
    + reflexivity.
    + vm_compute. reflexivity.
    + rewrite Heq. apply (H400 eq_refl "weight"). reflexivity.
  - destruct (create_store_fault
                (λ (q : Query) (t : Table), (t, Rejected (not_null_violation "freight")))
                sample_body empty_table empty_table
                (not_null_violation "freight"))
      as (resp & Heq & _ & H400 & _).
    + reflexivity.
    + reflexivity.
    + reflexivity.
    + rewrite Heq. apply (H400 eq_refl "freight"). reflexivity.
  - destruct (create_store_fault unreachable_query sample_body empty_table
                empty_table connection_refused)
      as (resp & Heq & _ & _ & _ & H500).
    + reflexivity.
    + reflexivity.
    + reflexivity.
    + rewrite Heq. apply H500; discriminate.
Defined.

(** In the modelled table a Create whose weight coerces to no value is
    rejected by the not-null constraint, and the response names the
    column. *)
Lemma pg_create_null_weight body t :
  ToBoolean (prop body "bilty_sl_no") = true →
  ToBoolean (prop body "weight") = true →
  parseNumeric (prop body "weight") = JNull →
  (post_bilty pg_query body t).2
  = {| status := 400;
       payload := JsonError "Missing required data for column: weight" |}.
Proof.
  intros Hsl Hw Hnull. unfold post_bilty. rewrite Hsl, Hw, pg_insert. simpl.
  by rewrite bool_decide_eq_true_2.
Qed.

Example create_text_weight :
  post_bilty pg_query text_weight_body empty_table
  = ({| tbl_rows := ∅; tbl_seq := 2 |},
     {| status := 400;
        payload := JsonError "Missing required data for column: weight" |}).
Proof. vm_compute. reflexivity. Qed.

(** In the modelled table a Create that repeats the serial number of a
    stored row is answered HTTP 409. *)
Lemma pg_create_duplicate body t k d :
  ToBoolean (prop body "bilty_sl_no") = true →
  ToBoolean (prop body "weight") = true →
  parseNumeric (prop body "weight") ≠ JNull →
  tbl_rows t !! tbl_seq t = None →
  tbl_rows t !! k = Some d →
  bilty_sl_no d = prop body "bilty_sl_no" →
  (post_bilty pg_query body t).2
  = {| status := 409;
       payload := JsonError "Bilty SL No. already exists. Please use a unique number." |}
  ∧ tbl_rows (post_bilty pg_query body t).1 = tbl_rows t.
Proof.
  intros Hsl Hw Hnum Hfree Hk Hd. unfold post_bilty.
  rewrite Hsl, Hw, pg_insert. simpl.
  rewrite bool_decide_eq_false_2 by done.
  rewrite bool_decide_eq_false_2 by (rewrite Hfree; by intros [? ?]).
  rewrite (sl_no_taken_true None _ _ k d); try done.
  - destruct (prop body "bilty_sl_no"); try done.
  - rewrite Hd. by destruct (prop body "bilty_sl_no").
Qed.

(** C4.  When a Create request passes the presence check and the store
    accepts the INSERT, exactly one row is added, under the [id] the store
    assigned, its six decimal fields being [parseNumeric] of the raw inputs
    and its other fields the inputs as given; properties of the body that
    are not fields of the record are ignored; and the response is HTTP 201
    with that row, [id] included. *)
Theorem create_persists (body : gmap string JSValue) (t t' : Table)
    (result : QueryResult) :
  ToBoolean (prop body "bilty_sl_no") = true →
  ToBoolean (prop body "weight") = true →
  pg_query (Insert (bilty_values body)) t = (t', Resolved result) →
  let id := tbl_seq t in
  let d := requested_data body in
  tbl_rows t !! id = None ∧
  tbl_rows t' = <[id := d]> (tbl_rows t) ∧
  size (tbl_rows t') = S (size (tbl_rows t)) ∧
  post_bilty pg_query body t
    = (t', {| status := 201; payload := JsonRow (FullRow id d) |}) ∧
  (∀ k v, k ∉ field_names →
     post_bilty pg_query (<[k := v]> body) t = post_bilty pg_query body t).
Proof.
  intros Hsl Hw Hq. cbv zeta.
  pose proof Hq as Hres. rewrite pg_insert in Hres. cbv zeta in Hres.
  destruct (bool_decide (weight (requested_data body) = JNull));
    [discriminate|].
  destruct (bool_decide (is_Some (tbl_rows t !! tbl_seq t))) eqn:Hfree;
    [discriminate|].
  destruct (sl_no_taken None _ (tbl_rows t)); [discriminate|].
  injection Hres as <- <-.
  apply bool_decide_eq_false in Hfree.
  assert (tbl_rows t !! tbl_seq t = None) as Hnone.
  { destruct (tbl_rows t !! tbl_seq t) eqn:E; [|done]. destruct Hfree. by eexists. }
  split; [done|]. split; [done|].
  split; [by apply map_size_insert_None|]. split.
  - unfold post_bilty. by rewrite Hsl, Hw, Hq.
  - intros k v Hk. unfold post_bilty.
    rewrite bilty_values_unknown_field by done.
    rewrite !prop_insert_ne; [done|..]; intros ->; apply Hk; unfold field_names;
      repeat (first [apply list_elem_of_here | apply list_elem_of_further]).
Qed.

Lemma create_persists_witness :
  post_bilty pg_query sample_body empty_table
  = ({| tbl_rows := <[1 := requested_data sample_body]> ∅; tbl_seq := 2 |},
     {| status := 201;
        payload := JsonRow (FullRow 1 (requested_data sample_body)) |}).
Proof.
  apply (create_persists sample_body empty_table
           {| tbl_rows := <[1 := requested_data sample_body]> ∅; tbl_seq := 2 |}
           {| rows := [FullRow 1 (requested_data sample_body)]; rowCount := 1 |}).
  - reflexivity.
  - reflexivity.
  - vm_compute. reflexivity.
Defined.

(** ** Update *)

(** C5, as amended.  When an Update request names the [id] of a stored row
    and the store accepts the UPDATE, all fifteen data fields of that row
    are overwritten from the request (an omitted field becomes NULL, the
    six decimal fields pass through [parseNumeric]), nothing of the old
    row but its [id] remains, no presence check is made, and the response
    is HTTP 200 with the row as it now is. *)
Theorem update_overwrites (id : string) (k : Z) (body : gmap string JSValue)
    (t t' : Table) (old : BiltyData) (result : QueryResult) :
  pg_int4_in id = inr k →
  tbl_rows t !! k = Some old →
  pg_query (Update (bilty_values body ++ [JStr id])%list) t = (t', Resolved result) →
  let d := requested_data body in
  tbl_rows t' = <[k := d]> (tbl_rows t) ∧
  tbl_seq t' = tbl_seq t ∧
  put_bilty pg_query id body t
    = (t', {| status := 200; payload := JsonRow (FullRow k d) |}).
Proof.
  intros Hid Hold Hq. cbv zeta.
  pose proof Hq as Hres. rewrite pg_update in Hres. cbv zeta in Hres.
  rewrite Hid, Hold in Hres.
  destruct (bool_decide (weight (requested_data body) = JNull));
    [discriminate|].
  destruct (sl_no_taken (Some k) _ (tbl_rows t)); [discriminate|].
  injection Hres as <- <-.
  split; [done|]. split; [done|].
  unfold put_bilty. by rewrite Hq.
Qed.

Lemma update_overwrites_witness :
  put_bilty pg_query "2" weight_only_body two_row_table
  = ({| tbl_rows := <[2 := requested_data weight_only_body]> (tbl_rows two_row_table);
        tbl_seq := 3 |},
     {| status := 200;
        payload := JsonRow (FullRow 2 (requested_data weight_only_body)) |})
  ∧ bilty_sl_no (requested_data weight_only_body) = JNull
  ∧ truck_no (requested_data weight_only_body) = JNull.
Proof.
  split; [|split; reflexivity].
  apply (update_overwrites "2" 2 weight_only_body two_row_table
           {| tbl_rows := <[2 := requested_data weight_only_body]>
                            (tbl_rows two_row_table);
              tbl_seq := 3 |}
           (requested_data second_body)
           {| rows := [FullRow 2 (requested_data weight_only_body)];
              rowCount := 1 |}).
  - reflexivity.
  - vm_compute. reflexivity.
  - vm_compute. reflexivity.
Defined.

(** C5, as stated, fails: an Update of the stored row 2 that takes the
    serial number of row 1 is refused by the store; the response is not
    HTTP 200 and the row keeps its old fields. *)
Lemma update_duplicate_not_overwritten :
  pg_int4_in "2" = inr 2 ∧
  is_Some (tbl_rows two_row_table !! 2) ∧
  ¬ (status (put_bilty pg_query "2" sample_body two_row_table).2 = 200 ∧
     tbl_rows (put_bilty pg_query "2" sample_body two_row_table).1 !! 2
     = Some (requested_data sample_body)).
Proof.
  split; [reflexivity|]. split.
  - exists (requested_data second_body). vm_compute. reflexivity.
  - intros [H _]. vm_compute in H. discriminate.
Qed.

(** C6.  An Update whose identifier is the number of no stored row is
    answered HTTP 404 and leaves the store as it was. *)
Theorem update_not_found (id : string) (k : Z) (body : gmap string JSValue)
    (t : Table) :
  pg_int4_in id = inr k →
  tbl_rows t !! k = None →
  put_bilty pg_query id body t
  = (t, {| status := 404; payload := JsonError "Bilty entry not found." |}).
Proof.
  intros Hid Hnone. unfold put_bilty.
  rewrite pg_update. cbv zeta. by rewrite Hid, Hnone.
Qed.

Lemma update_not_found_witness :
  put_bilty pg_query "7" sample_body two_row_table
  = (two_row_table,
     {| status := 404; payload := JsonError "Bilty entry not found." |}).
Proof.
  apply (update_not_found "7" 7 sample_body two_row_table).
  - reflexivity.
  - vm_compute. reflexivity.
Defined.

(** C9.  When the store rejects the UPDATE of an Update request, the
    response is HTTP 500 with the text of the fault, whatever its class:
    the Update handler does not look at the SQLSTATE.  In particular an
    Update that takes the serial number of another stored row is answered
    HTTP 500, not 409, and changes nothing. *)
Theorem update_store_fault :
  (∀ (DB : Type) (pool_query : Query → DB → DB * Outcome) (id : string)
     (body : gmap string JSValue) (db db' : DB) (err : DbError),
     pool_query (Update (bilty_values body ++ [JStr id])%list) db
       = (db', Rejected err) →
     put_bilty pool_query id body db
     = (db', {| status := 500;
                payload := JsonError ("Server error: " +:+ message err) |})) ∧
  (∀ (id : string) (k k' : Z) (body : gmap string JSValue) (t : Table)
     (old other : BiltyData),
     pg_int4_in id = inr k →
     tbl_rows t !! k = Some old →
     k' ≠ k →
     tbl_rows t !! k' = Some other →
     bilty_sl_no other ≠ JNull →
     bilty_sl_no other = bilty_sl_no (requested_data body) →
     ∃ err, put_bilty pg_query id body t
            = (t, {| status := 500;
                     payload := JsonError ("Server error: " +:+ message err) |})).
Proof.
  split.
  - intros DB pool_query id body db db' err Hq.
    unfold put_bilty. by rewrite Hq.
  - intros id k k' body t old other Hid Hold Hne Hother Hnn Hsl.
    unfold put_bilty. rewrite pg_update. cbv zeta. rewrite Hid, Hold.
    destruct (bool_decide (weight (requested_data body) = JNull));
      [by eexists|].
    rewrite (sl_no_taken_true (Some k) _ _ k' other); [by eexists|..].
    + by rewrite <- Hsl.
    + done.
    + congruence.
    + done.
Qed.

Lemma update_store_fault_witness :
  put_bilty unreachable_query "1" sample_body empty_table
  = (empty_table,
     {| status := 500;
        payload := JsonError "Server error: connect ECONNREFUSED 127.0.0.1:5432" |})
  ∧ ∃ err, put_bilty pg_query "2" sample_body two_row_table
           = (two_row_table,
              {| status := 500;
                 payload := JsonError ("Server error: " +:+ message err) |}).
Proof.
  split.
  - apply (proj1 update_store_fault Table unreachable_query "1" sample_body
             empty_table empty_table connection_refused).
    reflexivity.
  - apply (proj2 update_store_fault "2" 2 1 sample_body two_row_table
             (requested_data second_body) (requested_data sample_body)).
    + reflexivity.
    + vm_compute. reflexivity.
    + discriminate.
    + vm_compute. reflexivity.
    + discriminate.
    + reflexivity.
Defined.

Example pg_int4_in_digits : pg_int4_in "42" = inr 42.
Proof. reflexivity. Qed.

Example pg_int4_in_padded : pg_int4_in " -7 " = inr (-7).
Proof. reflexivity. Qed.

Example pg_int4_in_word : pg_int4_in "abc" = inl (invalid_integer "abc").
Proof. reflexivity. Qed.

Example pg_int4_in_fraction : pg_int4_in "1.5" = inl (invalid_integer "1.5").
Proof. reflexivity. Qed.

Example pg_int4_in_large :
  pg_int4_in "99999999999" = inl (integer_out_of_range "99999999999").
Proof. reflexivity. Qed.

(** C10.  Update and Delete hand the identifier of the path to the store as
    the string it is; when that string is not the text of an integer the
    store rejects the statement, and the response is HTTP 500, not 404,
    with the store as it was. *)
Theorem invalid_id_is_store_fault (id : string) (body : gmap string JSValue)
    (t : Table) (err : DbError) :
  pg_int4_in id = inl err →
  put_bilty pg_query id body t
  = (t, {| status := 500;
           payload := JsonError ("Server error: " +:+ message err) |}) ∧
  delete_bilty pg_query id t
  = (t, {| status := 500;
           payload := JsonError "Server error deleting bilty entry." |}).
Proof.
  intros Hid. split.
  - unfold put_bilty. rewrite pg_update. cbv zeta. by rewrite Hid.
  - unfold delete_bilty. by rewrite pg_delete, Hid.
Qed.

Lemma invalid_id_is_store_fault_witness :
  put_bilty pg_query "abc" sample_body two_row_table
  = (two_row_table,
     {| status := 500;
        payload := JsonError ("Server error: " +:+ message (invalid_integer "abc")) |}) ∧
  delete_bilty pg_query "abc" two_row_table
  = (two_row_table,
     {| status := 500;
        payload := JsonError "Server error deleting bilty entry." |}).
Proof.
  apply (invalid_id_is_store_fault "abc" sample_body two_row_table
           (invalid_integer "abc")).
  reflexivity.
Defined.

(** ** List *)

Global Instance id_desc_transitive : Transitive id_desc.
Proof. unfold id_desc. intros a b c ? ?. lia. Qed.

Global Instance id_desc_total : Total id_desc.
Proof. unfold id_desc. intros a b. lia. Qed.

Lemma select_desc_perm (m : gmap Z BiltyData) :
  select_desc m ≡ₚ (λ kd, FullRow kd.1 kd.2) <$> map_to_list m.
Proof. unfold select_desc. by rewrite merge_sort_Permutation. Qed.

Lemma elem_of_select_desc (m : gmap Z BiltyData) r :
  r ∈ select_desc m ↔ ∃ k d, r = FullRow k d ∧ m !! k = Some d.
Proof.
  rewrite select_desc_perm, list_elem_of_fmap. split.
  - intros ([k d] & -> & Hin). exists k, d. split; [done|].
    by apply elem_of_map_to_list.
  - intros (k & d & -> & Hk). exists (k, d). split; [done|].
    by apply elem_of_map_to_list.
Qed.

Lemma strictly_descending (l : list (Z * BiltyData)) :
  StronglySorted id_desc l → NoDup l.*1 →
  StronglySorted (λ a b, b.1 < a.1) l.
Proof.
  induction 1 as [|x l Hsorted IH Hall]; intros Hnd; [constructor|].
  simpl in Hnd. apply NoDup_cons in Hnd as [Hx Hnd].
  constructor; [by apply IH|].
  apply Forall_forall. intros y Hy.
  assert (id_desc x y) as Hle by (eapply Forall_forall in Hall; done).
  assert (y.1 ≠ x.1) as Hne.
  { intros Heq. apply Hx. rewrite <- Heq. by apply list_elem_of_fmap_2. }
  unfold id_desc in Hle. lia.
Qed.

Lemma select_desc_sorted (m : gmap Z BiltyData) :
  StronglySorted id_descending (select_desc m).
Proof.
  unfold select_desc.
  apply (StronglySorted_fmap _ (λ a b : Z * BiltyData, b.1 < a.1)); [done|].
  apply strictly_descending.
  - apply StronglySorted_merge_sort; apply _.
  - rewrite merge_sort_Permutation. apply NoDup_fst_map_to_list.
Qed.

(** C8.  List answers HTTP 200 with all the stored rows, each once, in
    descending order of [id], the empty sequence for an empty table, and
    leaves the store as it was; when the store rejects the query the
    response is HTTP 500 with one fixed message, the same for every
    fault. *)
Theorem list_records :
  (∀ t : Table, ∃ l,
     get_bilty pg_query t = (t, {| status := 200; payload := JsonRows l |}) ∧
     l ≡ₚ rows_of t ∧
     (∀ k d, FullRow k d ∈ l ↔ tbl_rows t !! k = Some d) ∧
     StronglySorted id_descending l) ∧
  (∀ t : Table, tbl_rows t = ∅ →
     get_bilty pg_query t = (t, {| status := 200; payload := JsonRows [] |})) ∧
  (∀ (DB : Type) (pool_query : Query → DB → DB * Outcome) (db db' : DB)
     (err : DbError),
     pool_query SelectAll db = (db', Rejected err) →
     get_bilty pool_query db
     = (db', {| status := 500;
                payload := JsonError "Server error fetching bilty data." |})).
Proof.
  split; [|split].
  - intros t. exists (select_desc (tbl_rows t)).
    split; [done|]. split; [apply select_desc_perm|]. split.
    + intros k d. rewrite elem_of_select_desc. split.
      * by intros (k' & d' & [= <- <-] & H).
      * intros H. by exists k, d.
    + apply select_desc_sorted.
  - intros t Hempty. unfold get_bilty. simpl. rewrite Hempty.
    unfold select_desc. by rewrite map_to_list_empty.
  - intros DB pool_query db db' err Hq. unfold get_bilty. by rewrite Hq.
Qed.

Lemma list_records_witness :
  get_bilty unreachable_query two_row_table
  = (two_row_table,
     {| status := 500;
        payload := JsonError "Server error fetching bilty data." |}).
Proof.
  apply (proj2 (proj2 list_records) Table unreachable_query two_row_table
           two_row_table connection_refused).
  reflexivity.
Defined.

(** ** Delete *)

(** C7.  A Delete whose identifier is the number of a stored row removes
    that row and answers HTTP 204 with no body; a List that follows does
    not contain it and still contains every other row; a second Delete of
    the same identifier answers HTTP 404.  A Delete whose identifier is the
    number of no stored row answers HTTP 404 and changes nothing. *)
Theorem delete_row (id : string) (k : Z) (t : Table) :
  pg_int4_in id = inr k →
  match tbl_rows t !! k with
  | Some _ =>
      ∃ t',
        delete_bilty pg_query id t
          = (t', {| status := 204; payload := NoBody |}) ∧
        tbl_rows t' = delete k (tbl_rows t) ∧
        (∃ l, get_bilty pg_query t'
                = (t', {| status := 200; payload := JsonRows l |}) ∧
              (∀ r, r ∈ l → row_id r ≠ k) ∧
              (∀ k' d, k' ≠ k →
                 (FullRow k' d ∈ l ↔ tbl_rows t !! k' = Some d))) ∧
        delete_bilty pg_query id t'
          = (t', {| status := 404; payload := JsonError "Bilty entry not found." |})
  | None =>
      delete_bilty pg_query id t
        = (t, {| status := 404; payload := JsonError "Bilty entry not found." |})
  end.
Proof.
  intros Hid.
  destruct (tbl_rows t !! k) as [old|] eqn:Hk.
  - exists {| tbl_rows := delete k (tbl_rows t); tbl_seq := tbl_seq t |}.
    split; [|split; [done|split]].
    + unfold delete_bilty. by rewrite pg_delete, Hid, Hk.
    + exists (select_desc (delete k (tbl_rows t))). split; [done|]. split.
      * intros r (k' & d & -> & Hk')%elem_of_select_desc. simpl.
        intros ->. by rewrite lookup_delete_eq in Hk'.
      * intros k' d Hne. rewrite elem_of_select_desc. split.
        -- intros (k'' & d' & [= <- <-] & H). by rewrite lookup_delete_ne in H.
        -- intros H. exists k', d. split; [done|]. by rewrite lookup_delete_ne.
    + unfold delete_bilty. rewrite pg_delete, Hid. simpl.
      by rewrite lookup_delete_eq.
  - unfold delete_bilty. by rewrite pg_delete, Hid, Hk.
Qed.

Lemma delete_row_witness :
  status (delete_bilty pg_query "1" two_row_table).2 = 204 ∧
  status (delete_bilty pg_query "1"
            (delete_bilty pg_query "1" two_row_table).1).2 = 404.
Proof.
  pose proof (delete_row "1" 1 two_row_table eq_refl) as H.
  assert (tbl_rows two_row_table !! 1 = Some (requested_data sample_body)) as E
    by (vm_compute; reflexivity).
  rewrite E in H. destruct H as (t' & Hdel & _ & _ & Hagain).
  rewrite Hdel. simpl. rewrite Hagain. split; reflexivity.
Defined.

(** * Further properties *)

(** ** The origin gate *)

Lemma indexOf_from_spec l x : ∀ i,
  0 ≤ i →
  (indexOf_from i l x = -1 ↔ x ∉ l) ∧ (x ∈ l → i ≤ indexOf_from i l x).
Proof.
  induction l as [|y l IH]; intros i Hi; simpl.
  - split; [split; [intros _; apply not_elem_of_nil|done]|].
    intros H. by apply not_elem_of_nil in H.
  - destruct (String.eqb y x) eqn:E.
    + apply String.eqb_eq in E as ->. split; [|lia]. split; [lia|].
      intros H. destruct H. apply list_elem_of_here.
    + apply String.eqb_neq in E.
      destruct (IH (i + 1)) as [Hiff Hle]; [lia|]. split.
      * rewrite Hiff, not_elem_of_cons. split; [by intros ?|by intros [_ ?]].
      * intros [?|H]%elem_of_cons; [congruence|]. specialize (Hle H). lia.
Qed.

Lemma cors_origin_listed o :
  o ≠ "" → cors_origin (Some o) = OriginAllowed ↔ o ∈ allowedOrigins.
Proof.
  intros E%String.eqb_neq. simpl. rewrite E.
  destruct (indexOf_from_spec allowedOrigins o 0) as [Hiff _]; [lia|].
  fold (indexOf allowedOrigins o) in Hiff.
  destruct (indexOf allowedOrigins o =? -1) eqn:Hidx.
  - apply Z.eqb_eq, Hiff in Hidx. split; [done|]. intros H. by destruct Hidx.
  - apply Z.eqb_neq in Hidx. split; [intros _|done].
    destruct (decide (o ∈ allowedOrigins)) as [?|Hnin]; [done|].
    by apply Hiff in Hnin.
Qed.

Lemma cors_origin_refused o :
  o ≠ "" → o ∉ allowedOrigins →
  cors_origin (Some o) =
    OriginRefused
      ("The CORS policy for this site does not allow access from the specified Origin: "
       +:+ o).
Proof.
  intros E Hnin. pose proof (cors_origin_listed o E) as H.
  apply String.eqb_neq in E. simpl in *. rewrite E in *.
  destruct (indexOf allowedOrigins o =? -1); [done|].
  destruct Hnin. by apply H.
Qed.

(** X1.  The origin gate lets a request through exactly when it carries no
    Origin (absent or empty) or its Origin is, character for character, one
    of the three of [allowedOrigins]; any other Origin is refused with an
    error whose message ends with that Origin. *)
Theorem origin_gate (origin : option string) :
  (cors_origin origin = OriginAllowed ↔
   origin = None ∨ origin = Some "" ∨ ∃ o, origin = Some o ∧ o ∈ allowedOrigins) ∧
  (∀ o, origin = Some o → o ≠ "" → o ∉ allowedOrigins →
     cors_origin origin =
       OriginRefused
         ("The CORS policy for this site does not allow access from the specified Origin: "
          +:+ o)).
Proof.
  split.
  - destruct origin as [o|]; [|split; [by left|done]].
    destruct (decide (o = "")) as [->|E]; [split; [by right; left|done]|].
    rewrite (cors_origin_listed o E). split.
    + intros H. right. right. by exists o.
    + intros [?|[?|(o' & [= <-] & Hin)]]; [done|congruence|done].
  - intros o -> E Hnin. by apply cors_origin_refused.
Qed.

Lemma origin_gate_witness :
  cors_origin (Some "http://localhost:3000") =
    OriginRefused
      ("The CORS policy for this site does not allow access from the specified Origin: "
       +:+ "http://localhost:3000").
Proof.
  apply (proj2 (origin_gate (Some "http://localhost:3000"))).
  - reflexivity.
  - discriminate.
  - intros H. unfold allowedOrigins in H.
    repeat (apply elem_of_cons in H as [H|H]; [discriminate H|]).
    by apply not_elem_of_nil in H.
Defined.

Lemma append_eq_self (o s : string) : o +:+ s = o → s = "".
Proof.
  induction o as [|c o IH]; simpl; [done|]. intros H. injection H as H. auto.
Qed.

(** X2.  An Origin that extends an allowed one by anything - a port, a
    path, a longer host name - is refused. *)
Theorem origin_extension_refused (o s : string) :
  o ∈ allowedOrigins → s ≠ "" →
  cors_origin (Some (o +:+ s)) =
    OriginRefused
      ("The CORS policy for this site does not allow access from the specified Origin: "
       +:+ (o +:+ s)).
Proof.
  intros Ho Hs. apply cors_origin_refused.
  - intros H. destruct o; [by simpl in H|discriminate].
  - intros Hin. unfold allowedOrigins in Ho, Hin.
    repeat (apply elem_of_cons in Ho as [->|Ho]);
      [..|by apply not_elem_of_nil in Ho];
      repeat (apply elem_of_cons in Hin as [Hin|Hin];
              [first [by apply append_eq_self in Hin | discriminate Hin]|]);
      by apply not_elem_of_nil in Hin.
Qed.

Lemma origin_extension_refused_witness :
  cors_origin (Some "https://roadways.bestcement.co.in.example.net") =
    OriginRefused
      ("The CORS policy for this site does not allow access from the specified Origin: "
       +:+ "https://roadways.bestcement.co.in.example.net").
Proof.
  apply (origin_extension_refused "https://roadways.bestcement.co.in" ".example.net").
  - unfold allowedOrigins. do 2 apply list_elem_of_further. apply list_elem_of_here.
  - discriminate.
Defined.

(** ** What the routes read and answer *)

(** X3.  Whatever the store does, List answers 200 or 500, Create 201,
    400, 409 or 500, Update 200, 404 or 500, and Delete 204, 404 or 500;
    no route answers anything else. *)
Theorem response_statuses {DB : Type} (pool_query : Query → DB → DB * Outcome)
    (req : Request) (db : DB) :
  let s := status (handle pool_query req db).2 in
  match req with
  | GetBilty => s = 200 ∨ s = 500
  | PostBilty _ => s = 201 ∨ s = 400 ∨ s = 409 ∨ s = 500
  | PutBilty _ _ => s = 200 ∨ s = 404 ∨ s = 500
  | DeleteBilty _ => s = 204 ∨ s = 404 ∨ s = 500
  end.
Proof.
  destruct req as [|body|id body|id]; simpl.
  - unfold get_bilty. destruct (pool_query _ db) as [db' [result|err]]; simpl; auto.
  - unfold post_bilty.
    destruct (negb _ || negb _); simpl; [auto|].
    destruct (pool_query _ db) as [db' [result|err]]; simpl; [auto|].
    unfold insert_error. repeat case_bool_decide; simpl; auto.
  - unfold put_bilty. destruct (pool_query _ db) as [db' [result|err]]; simpl; [|auto].
    destruct (length (rows result) =? 0)%nat; simpl; auto.
  - unfold delete_bilty. destruct (pool_query _ db) as [db' [result|err]]; simpl; [|auto].
    destruct (rowCount result =? 0)%nat; simpl; auto.
Qed.

Lemma bilty_values_ext (b1 b2 : gmap string JSValue) :
  (∀ name, name ∈ field_names → prop b1 name = prop b2 name) →
  bilty_values b1 = bilty_values b2.
Proof.
  intros H. unfold bilty_values.
  rewrite !(H _) by (unfold field_names;
    repeat (first [apply list_elem_of_here | apply list_elem_of_further])).
  done.
Qed.

(** X4.  Create and Update read nothing of a body but its fifteen fields:
    two bodies that agree on them get the same response and leave the same
    store, whatever else they contain (an [id], say). *)
Theorem handlers_read_fifteen_fields {DB : Type}
    (pool_query : Query → DB → DB * Outcome) (id : string)
    (b1 b2 : gmap string JSValue) (db : DB) :
  (∀ name, name ∈ field_names → prop b1 name = prop b2 name) →
  post_bilty pool_query b1 db = post_bilty pool_query b2 db ∧
  put_bilty pool_query id b1 db = put_bilty pool_query id b2 db.
Proof.
  intros H. unfold post_bilty, put_bilty.
  rewrite (bilty_values_ext b1 b2 H).
  rewrite (H "bilty_sl_no"), (H "weight"); [done|..]; unfold field_names;
    repeat (first [apply list_elem_of_here | apply list_elem_of_further]).
Qed.

Lemma handlers_read_fifteen_fields_witness :
  post_bilty pg_query (<["id" := JStr "99"]> sample_body) one_row_table
  = post_bilty pg_query sample_body one_row_table ∧
  put_bilty pg_query "1" (<["id" := JStr "99"]> sample_body) one_row_table
  = put_bilty pg_query "1" sample_body one_row_table.
Proof.
  apply (handlers_read_fifteen_fields pg_query "1"
           (<["id" := JStr "99"]> sample_body) sample_body one_row_table).
  intros name H. apply prop_insert_ne. intros <-.
  unfold field_names in H.
  repeat (apply elem_of_cons in H as [H|H]; [discriminate H|]).
  by apply not_elem_of_nil in H.
Defined.

(** ** What [parseNumeric] reads of a text *)

Lemma trim_start_white w s :
  string_forall is_white_space w = true → trim_start (w +:+ s) = trim_start s.
Proof.
  induction w as [|c w IH]; simpl; [done|].
  intros [Hc Hw]%andb_true_iff. rewrite Hc. auto.
Qed.

(** X5.  White space before a value is ignored: a text and the same text
    after any run of spaces, tabs or line breaks are coerced alike. *)
Theorem parseNumeric_leading_space (w s : string) :
  string_forall is_white_space w = true →
  parseNumeric (JStr (w +:+ s)) = parseNumeric (JStr s).
Proof.
  intros Hw. unfold parseNumeric, parseFloat, parseFloat_string.
  by rewrite trim_start_white.
Qed.

Lemma parseNumeric_leading_space_witness :
  parseNumeric (JStr (String "009" " " +:+ "12.5")) = parseNumeric (JStr "12.5").
Proof.
  apply (parseNumeric_leading_space (String "009" " ") "12.5"). reflexivity.
Defined.

Lemma scan_digits_run ds r : ∀ acc c,
  string_forall is_digit ds = true → starts_with_digit r = false →
  scan_digits (ds +:+ r) acc c
  = (numeral_from acc ds, c + Z.of_nat (String.length ds), r).
Proof.
  induction ds as [|d ds IH]; intros acc c Hds Hr; simpl.
  - destruct r as [|a r]; simpl in *; [|rewrite Hr]; by rewrite Z.add_0_r.
  - simpl in Hds. apply andb_true_iff in Hds as [Hd Hds]. rewrite Hd.
    rewrite IH by done. f_equal. f_equal. lia.
Qed.

Lemma digit_is_plain c x :
  is_digit c = true →
  is_white_space c = false ∧ Ascii.eqb c "+" = false ∧ Ascii.eqb c "-" = false ∧
  String.prefix "Infinity" (String c x) = false.
Proof.
  destruct c as [[] [] [] [] [] [] [] []]; intros H; vm_compute in H;
    try discriminate H; done.
Qed.

(** X6.  A text that is a run of decimal digits followed by anything that
    cannot continue a numeral - a unit, a comma, a space - is coerced to
    the value of the digits; what follows them is dropped. *)
Theorem parseNumeric_digits (ds r : string) :
  ds ≠ "" → string_forall is_digit ds = true → continues_literal r = false →
  parseNumeric (JStr (ds +:+ r))
  = JNum (number_of_decimal false (numeral_from 0 ds) 0).
Proof.
  intros Hne Hds Hr.
  assert (starts_with_digit r = false ∧ scan_fraction (numeral_from 0 ds) r
            = (numeral_from 0 ds, 0, r) ∧ scan_exponent r = 0) as (Hr1 & Hr2 & Hr3).
  { destruct r as [|a r]; [done|]. simpl in *.
    apply orb_false_iff in Hr as [Hr He2].
    apply orb_false_iff in Hr as [Hr He1].
    apply orb_false_iff in Hr as [Hr Hdot].
    by rewrite Hr, Hdot, He1, He2. }
  destruct ds as [|d ds]; [done|]. simpl in Hds.
  apply andb_true_iff in Hds as [Hd Hds].
  destruct (digit_is_plain d (ds +:+ r) Hd) as (Hw & Hplus & Hminus & HI).
  assert (parseFloat_string (String d ds +:+ r)
          = number_of_decimal false (numeral_from 0 (String d ds)) 0) as E.
  { unfold parseFloat_string.
    change (trim_start (String d ds +:+ r))
      with (if is_white_space d then trim_start (ds +:+ r) else String d ds +:+ r).
    rewrite Hw. cbv beta iota.
    change (String d ds +:+ r) with (String d (ds +:+ r)). cbv beta iota.
    rewrite Hplus, Hminus. unfold scan_unsigned. rewrite HI.
    change (String d (ds +:+ r)) with (String d ds +:+ r).
    rewrite scan_digits_run by (simpl; by rewrite ?Hd, ?Hds).
    rewrite Hr2, Hr3.
    replace (0 + Z.of_nat (String.length (String d ds)) =? 0) with false
      by (symmetry; apply Z.eqb_neq; simpl; lia).
    done. }
  unfold parseNumeric, parseFloat. rewrite E.
  by rewrite number_of_decimal_not_nan.
Qed.

Lemma parseNumeric_digits_witness :
  parseNumeric (JStr ("12" +:+ ",5 kg"))
  = JNum (number_of_decimal false (numeral_from 0 "12") 0).
Proof.
  apply (parseNumeric_digits "12" ",5 kg"); [discriminate|reflexivity|reflexivity].
Defined.

Lemma round_ratio_negate p q :
  round_ratio true p q = negate (round_ratio false p q).
Proof.
  unfold round_ratio.
  destruct (p =? 0); [done|]. cbv zeta.
  match goal with
  | |- context [let '(_, _) := ?c in _] => destruct c as [n2 e2]
  end.
  destruct (n2 =? 0); [done|]. by destruct (971 <? e2).
Qed.

Lemma scan_unsigned_negate s :
  scan_unsigned true s = negate (scan_unsigned false s).
Proof.
  unfold scan_unsigned.
  destruct (String.prefix "Infinity" s); [done|].
  destruct (scan_digits s 0 0) as [[ip ni] r1].
  destruct (scan_fraction ip r1) as [[m nf] r2].
  destruct ((ni =? 0) && (nf =? 0)); [done|].
  unfold number_of_decimal.
  destruct (0 <=? scan_exponent r2 - nf); apply round_ratio_negate.
Qed.

(** X7.  A minus sign before a text that begins with neither white space
    nor a sign only flips the sign of what the text is coerced to: no value
    stays no value, a number becomes its opposite. *)
Theorem parseNumeric_minus (s : string) :
  starts_plain s = true →
  parseNumeric (JStr ("-" +:+ s))
  = match parseNumeric (JStr s) with
    | JNum n => JNum (negate n)
    | r => r
    end.
Proof.
  intros Hs.
  assert (parseFloat_string ("-" +:+ s) = negate (parseFloat_string s)) as E.
  { unfold parseFloat_string. simpl. rewrite scan_unsigned_negate.
    destruct s as [|c r]; [done|]. simpl in *.
    apply negb_true_iff in Hs.
    apply orb_false_iff in Hs as [Hs Hminus].
    apply orb_false_iff in Hs as [Hw Hplus].
    by rewrite Hw, Hplus, Hminus. }
  unfold parseNumeric, parseFloat. rewrite E.
  by destruct (parseFloat_string s).
Qed.

Lemma parseNumeric_minus_witness :
  parseNumeric (JStr ("-" +:+ "7.5"))
  = match parseNumeric (JStr "7.5") with
    | JNum n => JNum (negate n)
    | r => r
    end.
Proof. apply (parseNumeric_minus "7.5"). reflexivity. Defined.

(** ** The stored rows across requests *)

Lemma sl_no_taken_false self sl (m : gmap Z BiltyData) k d :
  sl_no_taken self sl m = false → sl ≠ JNull →
  m !! k = Some d → Some k ≠ self → bilty_sl_no d ≠ sl.
Proof.
  intros Hfalse Hsl Hk Hself Hd.
  by rewrite (sl_no_taken_true self sl m k d) in Hfalse.
Qed.

Lemma sl_no_taken_self k sl d (m : gmap Z BiltyData) :
  sl_no_taken (Some k) sl (<[k := d]> m) = sl_no_taken (Some k) sl m.
Proof.
  unfold sl_no_taken. f_equal. apply bool_decide_ext. split.
  - intros (k' & d' & Hk' & Hne & Hd').
    assert (k' ≠ k) by congruence.
    rewrite lookup_insert_ne in Hk' by done. by exists k', d'.
  - intros (k' & d' & Hk' & Hne & Hd').
    assert (k' ≠ k) by congruence.
    exists k', d'. by rewrite lookup_insert_ne.
Qed.

(** X8.  A request that is not answered with a success status leaves the
    stored rows exactly as they were: a refused Create, Update or Delete
    persists nothing. *)
Theorem errors_keep_rows (req : Request) (t : Table) :
  is_success (handle pg_query req t).2 = false →
  tbl_rows (handle pg_query req t).1 = tbl_rows t.
Proof.
  destruct req as [|body|id body|id]; simpl.
  - done.
  - unfold post_bilty. destruct (negb _ || negb _); [done|].
    rewrite pg_insert. cbv zeta.
    destruct (bool_decide (weight _ = JNull)); [done|].
    destruct (bool_decide (is_Some _)); [done|].
    destruct (sl_no_taken None _ _); [done|]. discriminate.
  - unfold put_bilty. rewrite pg_update. cbv zeta.
    destruct (pg_int4_in id) as [err|k]; [done|].
    destruct (tbl_rows t !! k); [|done].
    destruct (bool_decide (weight _ = JNull)); [done|].
    destruct (sl_no_taken (Some k) _ _); [done|]. discriminate.
  - unfold delete_bilty. rewrite pg_delete.
    destruct (pg_int4_in id) as [err|k]; [done|].
    destruct (tbl_rows t !! k); [discriminate|done].
Qed.

Lemma errors_keep_rows_witness :
  tbl_rows (handle pg_query (PostBilty sample_body) one_row_table).1
  = tbl_rows one_row_table.
Proof.
  apply (errors_keep_rows (PostBilty sample_body) one_row_table).
  vm_compute. reflexivity.
Defined.

Lemma requested_row_ok body :
  weight (requested_data body) ≠ JNull → row_ok (requested_data body).
Proof.
  intros Hw. unfold row_ok, decimal_ok. simpl in *.
  repeat split; try apply parseNumeric_cases.
  by destruct (parseNumeric_cases (prop body "weight")) as [?|?].
Qed.

Lemma handle_table_ok (req : Request) (t : Table) :
  table_ok t → table_ok (handle pg_query req t).1.
Proof.
  intros [Hrows Hser Hids].
  destruct req as [|body|id body|id]; simpl.
  - done.
  - unfold post_bilty. destruct (negb _ || negb _); [done|].
    rewrite pg_insert. cbv zeta.
    assert (table_ok {| tbl_rows := tbl_rows t; tbl_seq := tbl_seq t + 1 |}) as Hsame.
    { split; simpl; [done..|]. intros k Hk. specialize (Hids k Hk). lia. }
    destruct (bool_decide (weight _ = JNull)) eqn:Hw; [done|].
    destruct (bool_decide (is_Some _)) eqn:Hfree; [done|].
    destruct (sl_no_taken None _ _) eqn:Htaken; [done|].
    apply bool_decide_eq_false in Hw, Hfree. simpl.
    split; simpl.
    + intros k d [[<- <-]|[_ Hk]]%lookup_insert_Some; [|by eapply Hrows].
      by apply requested_row_ok.
    + intros k1 k2 d1 d2 [[<- <-]|[Hne1 Hk1]]%lookup_insert_Some
        [[<- <-]|[Hne2 Hk2]]%lookup_insert_Some Hnn Heq; [done| | |by eauto].
      * exfalso. eapply (sl_no_taken_false None); [exact Htaken|exact Hnn|exact Hk2|done|done].
      * exfalso. eapply (sl_no_taken_false None);
          [exact Htaken| |exact Hk1|done|done]. by rewrite <- Heq.
    + intros k [d [[<- <-]|[_ Hk]]%lookup_insert_Some]; [lia|].
      assert (k < tbl_seq t) by (apply Hids; by eexists). lia.
  - unfold put_bilty. rewrite pg_update. cbv zeta.
    destruct (pg_int4_in id) as [err|k]; [done|].
    destruct (tbl_rows t !! k) as [old|] eqn:Hold; [|done].
    destruct (bool_decide (weight _ = JNull)) eqn:Hw; [done|].
    destruct (sl_no_taken (Some k) _ _) eqn:Htaken; [done|].
    apply bool_decide_eq_false in Hw. simpl.
    split; simpl.
    + intros k' d [[<- <-]|[_ Hk]]%lookup_insert_Some; [|by eapply Hrows].
      by apply requested_row_ok.
    + intros k1 k2 d1 d2 [[<- <-]|[Hne1 Hk1]]%lookup_insert_Some
        [[<- <-]|[Hne2 Hk2]]%lookup_insert_Some Hnn Heq; [done| | |by eauto].
      * exfalso. eapply (sl_no_taken_false (Some k));
          [exact Htaken|exact Hnn|exact Hk2|congruence|done].
      * exfalso. eapply (sl_no_taken_false (Some k));
          [exact Htaken| |exact Hk1|congruence|done]. by rewrite <- Heq.
    + intros k' [d [[<- <-]|[_ Hk]]%lookup_insert_Some]; apply Hids; by eexists.
  - unfold delete_bilty. rewrite pg_delete.
    destruct (pg_int4_in id) as [err|k]; [done|].
    destruct (tbl_rows t !! k) as [old|] eqn:Hold; [|done]. simpl.
    split; simpl.
    + intros k' d [_ Hk]%lookup_delete_Some. by eapply Hrows.
    + intros k1 k2 d1 d2 [_ Hk1]%lookup_delete_Some [_ Hk2]%lookup_delete_Some.
      by eauto.
    + intros k' [d [_ Hk]%lookup_delete_Some]. apply Hids. by eexists.
Qed.

(** X9.  Whatever requests are handled, in whatever order, the table stays
    well formed: every stored row has a numeric weight, its other decimal
    cells are NULL or numbers that are not NaN (never a text), no two rows
    share a non-null Bilty SL No., and every [id] in use is below the next
    one the store will assign. *)
Theorem run_table_ok (reqs : list Request) (t : Table) :
  table_ok t → table_ok (run pg_query reqs t).
Proof.
  revert t. induction reqs as [|req reqs IH]; intros t Hok; simpl; [done|].
  by apply IH, handle_table_ok.
Qed.

Lemma empty_table_ok : table_ok empty_table.
Proof.
  split; simpl.
  - intros k d H. by rewrite lookup_empty in H.
  - intros k1 k2 d1 d2 H. by rewrite lookup_empty in H.
  - intros k [d H]. by rewrite lookup_empty in H.
Qed.

Lemma run_table_ok_witness :
  table_ok (run pg_query
              [PostBilty sample_body; PostBilty text_weight_body;
               PutBilty "1" second_body; DeleteBilty "1"; GetBilty]
              empty_table).
Proof. apply (run_table_ok _ empty_table). apply empty_table_ok. Defined.

Lemma pg_post body t :
  post_bilty pg_query body t =
    let d := requested_data body in
    let t' := {| tbl_rows := tbl_rows t; tbl_seq := tbl_seq t + 1 |} in
    if negb (ToBoolean (prop body "bilty_sl_no")) || negb (ToBoolean (prop body "weight"))
    then (t, required_fields_response)
    else if bool_decide (weight d = JNull) then
      (t', {| status := 400;
              payload := JsonError "Missing required data for column: weight" |})
    else if bool_decide (is_Some (tbl_rows t !! tbl_seq t)) then (t', conflict_response)
    else if sl_no_taken None (bilty_sl_no d) (tbl_rows t) then (t', conflict_response)
    else
      ({| tbl_rows := <[tbl_seq t := d]> (tbl_rows t); tbl_seq := tbl_seq t + 1 |},
       {| status := 201; payload := JsonRow (FullRow (tbl_seq t) d) |}).
Proof.
  unfold post_bilty. rewrite pg_insert. cbv zeta.
  destruct (negb _ || negb _); [done|].
  destruct (bool_decide (weight _ = JNull)); [done|].
  destruct (bool_decide (is_Some _)); [done|].
  by destruct (sl_no_taken _ _ _).
Qed.

Lemma pg_post_created body t t' resp :
  post_bilty pg_query body t = (t', resp) →
  status resp = 201 →
  ToBoolean (prop body "bilty_sl_no") = true ∧
  weight (requested_data body) ≠ JNull ∧
  tbl_rows t !! tbl_seq t = None ∧
  t' = {| tbl_rows := <[tbl_seq t := requested_data body]> (tbl_rows t);
          tbl_seq := tbl_seq t + 1 |} ∧
  resp = {| status := 201;
            payload := JsonRow (FullRow (tbl_seq t) (requested_data body)) |}.
Proof.
  rewrite pg_post. cbv zeta. intros Hpost Hstatus.
  destruct (ToBoolean (prop body "bilty_sl_no"));
    [|injection Hpost as <- <-; discriminate].
  destruct (negb true || negb _);
    [injection Hpost as <- <-; discriminate|].
  destruct (bool_decide (weight _ = JNull)) eqn:Hw;
    [injection Hpost as <- <-; discriminate|].
  destruct (bool_decide (is_Some _)) eqn:Hfree;
    [injection Hpost as <- <-; discriminate|].
  destruct (sl_no_taken None _ _);
    [injection Hpost as <- <-; discriminate|].
  injection Hpost as <- <-.
  apply bool_decide_eq_false in Hw, Hfree.
  repeat split; [done|].
  destruct (tbl_rows t !! tbl_seq t) eqn:E; [|done]. destruct Hfree. by eexists.
Qed.

Lemma select_desc_insert_top (m : gmap Z BiltyData) id d :
  (∀ k, is_Some (m !! k) → k < id) →
  select_desc (<[id := d]> m) = FullRow id d :: select_desc m.
Proof.
  intros Hbelow.
  assert (m !! id = None) as Hfresh.
  { destruct (m !! id) eqn:E; [|done].
    assert (id < id) by (apply Hbelow; rewrite E; by eexists). lia. }
  unfold select_desc.
  transitivity ((λ kd : Z * BiltyData, FullRow kd.1 kd.2)
                  <$> ((id, d) :: merge_sort id_desc (map_to_list m))); [|done].
  f_equal.
  apply (StronglySorted_unique_strong id_desc).
  - intros [k1 d1] [k2 d2] H1 H2 Hle1 Hle2. unfold id_desc in *. simpl in *.
    assert (k1 = k2) as <- by lia. f_equal.
    rewrite merge_sort_Permutation in H1. apply elem_of_map_to_list in H1.
    assert ((k1, d2) ∈ map_to_list (<[id := d]> m)) as H2'.
    { rewrite map_to_list_insert by done.
      apply elem_of_cons in H2 as [H2|H2]; [rewrite H2; apply list_elem_of_here|].
      rewrite merge_sort_Permutation in H2. by apply list_elem_of_further. }
    apply elem_of_map_to_list in H2'. congruence.
  - apply StronglySorted_merge_sort; apply _.
  - constructor; [apply StronglySorted_merge_sort; apply _|].
    apply Forall_forall. intros [k' d'] Hin.
    rewrite merge_sort_Permutation in Hin. apply elem_of_map_to_list in Hin.
    unfold id_desc. simpl.
    assert (k' < id) by (apply Hbelow; rewrite Hin; by eexists). lia.
  - rewrite !merge_sort_Permutation. by apply map_to_list_insert.
Qed.

(** X10.  On a well-formed table, a List that follows a successful Create
    shows the created record first and, after it, the listing as it was
    before. *)
Theorem create_then_list (body : gmap string JSValue) (t t' : Table)
    (resp : Response) :
  table_ok t →
  post_bilty pg_query body t = (t', resp) →
  status resp = 201 →
  ∃ l,
    get_bilty pg_query t = (t, {| status := 200; payload := JsonRows l |}) ∧
    resp = {| status := 201;
              payload := JsonRow (FullRow (tbl_seq t) (requested_data body)) |} ∧
    get_bilty pg_query t'
    = (t', {| status := 200;
              payload := JsonRows (FullRow (tbl_seq t) (requested_data body) :: l) |}).
Proof.
  intros [_ _ Hids] Hpost Hstatus.
  destruct (pg_post_created body t t' resp Hpost Hstatus) as (_ & _ & _ & -> & ->).
  exists (select_desc (tbl_rows t)). split; [done|]. split; [done|].
  unfold get_bilty, pg_query, resolved. cbn [tbl_rows rows].
  by rewrite select_desc_insert_top.
Qed.

Lemma create_then_list_witness :
  ∃ l,
    get_bilty pg_query one_row_table
    = (one_row_table, {| status := 200; payload := JsonRows l |}) ∧
    (post_bilty pg_query second_body one_row_table).2
    = {| status := 201;
         payload := JsonRow (FullRow 2 (requested_data second_body)) |} ∧
    get_bilty pg_query two_row_table
    = (two_row_table,
       {| status := 200;
          payload := JsonRows (FullRow 2 (requested_data second_body) :: l) |}).
Proof.
  apply (create_then_list second_body one_row_table two_row_table
           (post_bilty pg_query second_body one_row_table).2).
  - apply (handle_table_ok (PostBilty sample_body) empty_table), empty_table_ok.
  - apply surjective_pairing.
  - vm_compute. reflexivity.
Defined.

Lemma pg_put id body t :
  put_bilty pg_query id body t =
    let d := requested_data body in
    match pg_int4_in id with
    | inl err =>
        (t, {| status := 500; payload := JsonError ("Server error: " +:+ message err) |})
    | inr k =>
        match tbl_rows t !! k with
        | None => (t, not_found_response)
        | Some _ =>
            if bool_decide (weight d = JNull) then
              (t, {| status := 500;
                     payload := JsonError ("Server error: "
                                           +:+ message (not_null_violation "weight")) |})
            else if sl_no_taken (Some k) (bilty_sl_no d) (tbl_rows t) then
              (t, {| status := 500;
                     payload := JsonError ("Server error: "
                       +:+ message (unique_violation "bilty_data_bilty_sl_no_key")) |})
            else
              ({| tbl_rows := <[k := d]> (tbl_rows t); tbl_seq := tbl_seq t |},
               {| status := 200; payload := JsonRow (FullRow k d) |})
        end
    end.
Proof.
  unfold put_bilty. rewrite pg_update. cbv zeta.
  destruct (pg_int4_in id) as [err|k]; [done|].
  destruct (tbl_rows t !! k); [|done].
  destruct (bool_decide _); [done|].
  by destruct (sl_no_taken _ _ _).
Qed.

(** X11.  Update is idempotent: sending the same Update again gives the
    same response and leaves the store as the first one left it. *)
Theorem update_idempotent (id : string) (body : gmap string JSValue) (t : Table) :
  put_bilty pg_query id body (put_bilty pg_query id body t).1
  = put_bilty pg_query id body t.
Proof.
  rewrite (pg_put id body t). cbv zeta.
  destruct (pg_int4_in id) as [err|k] eqn:Hid.
  { cbv [fst]. rewrite pg_put. cbv zeta. by rewrite Hid. }
  destruct (tbl_rows t !! k) as [old|] eqn:Hold.
  2: { cbv [fst]. rewrite pg_put. cbv zeta. by rewrite Hid, Hold. }
  destruct (bool_decide (weight (requested_data body) = JNull)) eqn:Hw.
  { cbv [fst]. rewrite pg_put. cbv zeta. by rewrite Hid, Hold, Hw. }
  destruct (sl_no_taken (Some k) (bilty_sl_no (requested_data body)) (tbl_rows t))
    eqn:Htaken.
  { cbv [fst]. rewrite pg_put. cbv zeta. by rewrite Hid, Hold, Hw, Htaken. }
  cbv [fst]. rewrite pg_put. cbv zeta. rewrite Hid. cbn [tbl_rows tbl_seq].
  rewrite lookup_insert_eq, Hw, sl_no_taken_self, Htaken.
  by rewrite insert_insert_eq.
Qed.

(** X12.  A Create that succeeded cannot be repeated: the same request sent
    again is answered HTTP 409 and adds no row. *)
Theorem create_twice_conflict (body : gmap string JSValue) (t t' : Table)
    (resp : Response) :
  post_bilty pg_query body t = (t', resp) →
  status resp = 201 →
  (post_bilty pg_query body t').2
  = {| status := 409;
       payload := JsonError "Bilty SL No. already exists. Please use a unique number." |}
  ∧ tbl_rows (post_bilty pg_query body t').1 = tbl_rows t'.
Proof.
  intros Hpost Hstatus.
  destruct (pg_post_created body t t' resp Hpost Hstatus)
    as (Hsl & Hw & Hfree & -> & ->).
  assert (ToBoolean (prop body "weight") = true) as Hwt.
  { destruct (prop body "weight") as [| |[|]|n|s] eqn:E; try done;
      try (by destruct Hw; simpl; rewrite E).
    - simpl. destruct n as [| |neg [|m] e]; try done.
      + destruct Hw. simpl. by rewrite E.
      + exfalso. rewrite pg_post in Hpost. cbv zeta in Hpost.
        rewrite E, Hsl in Hpost. simpl in Hpost. by injection Hpost.
    - simpl. apply negb_true_iff, String.eqb_neq. intros ->.
      destruct Hw. simpl. by rewrite E. }
  rewrite pg_post. cbv zeta. rewrite Hsl, Hwt. cbn [negb orb tbl_rows tbl_seq].
  rewrite bool_decide_eq_false_2 by done.
  destruct (bool_decide (is_Some _)); [done|].
  rewrite (sl_no_taken_true None _ _ (tbl_seq t) (requested_data body)); [done|..].
  - simpl. by destruct (prop body "bilty_sl_no").
  - by rewrite lookup_insert_eq.
  - done.
  - done.
Qed.

Lemma create_twice_conflict_witness :
  (post_bilty pg_query sample_body one_row_table).2
  = {| status := 409;
       payload := JsonError "Bilty SL No. already exists. Please use a unique number." |}
  ∧ tbl_rows (post_bilty pg_query sample_body one_row_table).1
    = tbl_rows one_row_table.
Proof.
  apply (create_twice_conflict sample_body empty_table one_row_table
           (post_bilty pg_query sample_body empty_table).2).
  - apply surjective_pairing.
  - reflexivity.
Defined.

(** X13.  Update cannot clear the weight: on a stored row, an Update whose
    weight is missing, empty or not numeric is refused by the store and
    answered HTTP 500 with the text of the not-null fault; the row keeps
    all its fields. *)
Theorem update_without_weight (id : string) (k : Z)
    (body : gmap string JSValue) (t : Table) :
  pg_int4_in id = inr k →
  is_Some (tbl_rows t !! k) →
  parseNumeric (prop body "weight") = JNull →
  put_bilty pg_query id body t
  = (t, {| status := 500;
           payload := JsonError ("Server error: "
                                 +:+ message (not_null_violation "weight")) |}).
Proof.
  intros Hid [old Hold] Hnull. unfold put_bilty.
  rewrite pg_update. cbv zeta. rewrite Hid, Hold.
  by rewrite bool_decide_eq_true_2.
Qed.

Lemma update_without_weight_witness :
  put_bilty pg_query "1" (delete "weight" sample_body) one_row_table
  = (one_row_table,
     {| status := 500;
        payload := JsonError ("Server error: "
                              +:+ message (not_null_violation "weight")) |}).
Proof.
  apply (update_without_weight "1" 1 (delete "weight" sample_body) one_row_table).
  - reflexivity.
  - exists (requested_data sample_body). vm_compute. reflexivity.
  - reflexivity.
Defined.

(** X14.  Create followed by Delete of the created [id] is a round trip on
    the stored rows: the Delete answers HTTP 204 and the rows are again
    those before the Create. *)
Theorem create_then_delete (body : gmap string JSValue) (id : string)
    (t t' : Table) (resp : Response) :
  post_bilty pg_query body t = (t', resp) →
  status resp = 201 →
  pg_int4_in id = inr (tbl_seq t) →
  (delete_bilty pg_query id t').2 = {| status := 204; payload := NoBody |} ∧
  tbl_rows (delete_bilty pg_query id t').1 = tbl_rows t.
Proof.
  intros Hpost Hstatus Hid.
  destruct (pg_post_created body t t' resp Hpost Hstatus) as (_ & _ & Hfree & -> & ->).
  unfold delete_bilty. rewrite pg_delete, Hid. cbn [tbl_rows tbl_seq].
  rewrite lookup_insert_eq. split; [done|].
  cbn [fst tbl_rows]. by apply delete_insert_id.
Qed.

Lemma create_then_delete_witness :
  (delete_bilty pg_query "2" two_row_table).2
  = {| status := 204; payload := NoBody |} ∧
  tbl_rows (delete_bilty pg_query "2" two_row_table).1 = tbl_rows one_row_table.
Proof.
  apply (create_then_delete second_body "2" one_row_table two_row_table
           (post_bilty pg_query second_body one_row_table).2).
  - apply surjective_pairing.
  - vm_compute. reflexivity.
  - reflexivity.
Defined.

Lemma parseNumeric_prepared v : parseNumeric (prepareValue v) = parseNumeric v.
Proof. by destruct v. Qed.

Lemma ToBoolean_prepared v : ToBoolean (prepareValue v) = ToBoolean v.
Proof. by destruct v. Qed.

Lemma requested_data_prepared (b1 b2 : gmap string JSValue) :
  (∀ name, name ∈ field_names →
     prepareValue (prop b1 name) = prepareValue (prop b2 name)) →
  requested_data b1 = requested_data b2 ∧
  ToBoolean (prop b1 "bilty_sl_no") = ToBoolean (prop b2 "bilty_sl_no") ∧
  ToBoolean (prop b1 "weight") = ToBoolean (prop b2 "weight").
Proof.
  intros H.
  assert (∀ name, name ∈ field_names →
            parseNumeric (prop b1 name) = parseNumeric (prop b2 name)) as Hnum.
  { intros name Hin.
    by rewrite <- (parseNumeric_prepared (prop b1 name)), (H name Hin),
      parseNumeric_prepared. }
  assert (∀ name, name ∈ field_names →
            ToBoolean (prop b1 name) = ToBoolean (prop b2 name)) as Hbool.
  { intros name Hin.
    by rewrite <- (ToBoolean_prepared (prop b1 name)), (H name Hin),
      ToBoolean_prepared. }
  split; [|split; apply Hbool; unfold field_names;
    repeat (first [apply list_elem_of_here | apply list_elem_of_further])].
  unfold requested_data.
  f_equal; first [apply H | apply Hnum]; unfold field_names;
    repeat (first [apply list_elem_of_here | apply list_elem_of_further]).
Qed.

(** X15.  To Create and Update a field sent as [null] and a field left out
    are the same: two bodies whose fifteen fields agree up to that
    difference get the same response and leave the same table. *)
Theorem null_is_absent (id : string) (b1 b2 : gmap string JSValue) (t : Table) :
  (∀ name, name ∈ field_names →
     prepareValue (prop b1 name) = prepareValue (prop b2 name)) →
  post_bilty pg_query b1 t = post_bilty pg_query b2 t ∧
  put_bilty pg_query id b1 t = put_bilty pg_query id b2 t.
Proof.
  intros H.
  destruct (requested_data_prepared b1 b2 H) as (Hd & Hsl & Hw).
  rewrite !pg_post, !pg_put. cbv zeta. by rewrite Hd, Hsl, Hw.
Qed.

Lemma null_is_absent_witness :
  post_bilty pg_query (<["lr_no" := JNull]> sample_body) empty_table
  = post_bilty pg_query sample_body empty_table ∧
  put_bilty pg_query "1" (<["lr_no" := JNull]> sample_body) one_row_table
  = put_bilty pg_query "1" sample_body one_row_table.
Proof.
  split.
  - apply (null_is_absent "1" (<["lr_no" := JNull]> sample_body) sample_body
             empty_table).
    intros name H. unfold field_names in H.
    repeat (apply elem_of_cons in H as [->|H]; [vm_compute; reflexivity|]).
    by apply not_elem_of_nil in H.
  - apply (null_is_absent "1" (<["lr_no" := JNull]> sample_body) sample_body
             one_row_table).
    intros name H. unfold field_names in H.
    repeat (apply elem_of_cons in H as [->|H]; [vm_compute; reflexivity|]).
    by apply not_elem_of_nil in H.
Defined.

(** X16.  After an Update that the store accepted, a List shows the row
    under its [id] with exactly the requested fields, and shows every
    other row as it was. *)
Theorem update_then_list (id : string) (body : gmap string JSValue)
    (t t' : Table) (resp : Response) :
  put_bilty pg_query id body t = (t', resp) →
  status resp = 200 →
  ∃ k l,
    pg_int4_in id = inr k ∧
    get_bilty pg_query t' = (t', {| status := 200; payload := JsonRows l |}) ∧
    (∀ d, FullRow k d ∈ l ↔ d = requested_data body) ∧
    (∀ k' d, k' ≠ k → (FullRow k' d ∈ l ↔ tbl_rows t !! k' = Some d)).
Proof.
  rewrite pg_put. cbv zeta. intros Hput Hstatus.
  destruct (pg_int4_in id) as [err|k]; [injection Hput as <- <-; discriminate|].
  destruct (tbl_rows t !! k); [|injection Hput as <- <-; discriminate].
  destruct (bool_decide _); [injection Hput as <- <-; discriminate|].
  destruct (sl_no_taken _ _ _); [injection Hput as <- <-; discriminate|].
  injection Hput as <- <-.
  exists k, (select_desc (<[k := requested_data body]> (tbl_rows t))).
  split; [done|]. split; [done|]. split.
  - intros d. rewrite elem_of_select_desc. split.
    + intros (k' & d' & [= <- <-] & H). rewrite lookup_insert_eq in H. congruence.
    + intros ->. eexists _, _. split; [done|]. by rewrite lookup_insert_eq.
  - intros k' d Hne. rewrite elem_of_select_desc. split.
    + intros (k'' & d' & [= <- <-] & H). by rewrite lookup_insert_ne in H.
    + intros H. eexists _, _. split; [done|]. by rewrite lookup_insert_ne.
Qed.

Lemma update_then_list_witness :
  ∃ k l,
    pg_int4_in "2" = inr k ∧
    get_bilty pg_query (put_bilty pg_query "2" weight_only_body two_row_table).1
    = ((put_bilty pg_query "2" weight_only_body two_row_table).1,
       {| status := 200; payload := JsonRows l |}) ∧
    (∀ d, FullRow k d ∈ l ↔ d = requested_data weight_only_body) ∧
    (∀ k' d, k' ≠ k → (FullRow k' d ∈ l ↔ tbl_rows two_row_table !! k' = Some d)).
Proof.
  apply (update_then_list "2" weight_only_body two_row_table
           (put_bilty pg_query "2" weight_only_body two_row_table).1
           (put_bilty pg_query "2" weight_only_body two_row_table).2).
  - apply surjective_pairing.
  - vm_compute. reflexivity.
Defined.
